(** * ATTN attendance backend: live store, durable store, sweep, services and webhook

    Shallow embedding of the attendance lifecycle code of the backend:
    - [app/backend/models/redis_models.py], [app/backend/models/db_models.py]
    - [app/backend/db/redis_client.py] (the ephemeral key-value store)
    - [app/backend/db/db_client.py] (the durable relational store, upserts)
    - [app/backend/tasks/cron.py] ([unified_persistence_task])
    - [app/backend/services/teacher_service.py], [services/student_service.py]
    - [app/backend/tools/wifi_verifier.py], [tools/face_verifier.py]
    - [app/backend/api/webhooks.py]

    Modelling conventions.
    - UUIDs are their canonical string form ([str(uuid)]), so [UUID(s)] and
      [str(u)] are the identity on the strings the code itself writes.
    - Datetimes are UTC instants, an integer number of seconds ([Z]);
      [datetime.now] and the store's own clock (key expiry) are an explicit
      argument [now] of every operation that reads them.
    - JSON blobs are stored as the typed pydantic values they serialise;
      [model_validate_json (model_dump_json v) = v].
    - Each Redis key family is its own map, keyed by the components of the
      key: [attendance_session:{id}] by [id],
      [attendance_index:name:{lesson}:{teacher}] by the string
      [{lesson}:{teacher}] (the f-string, so two pairs that join to the same
      string share one key),
      [attendance_index:teacher:{sn}] by [sn],
      [attendance_records:{id}:{sn}] by [(id, sn)],
      [verification:{vid}] by [vid] (with its expiry instant),
      [users:{sn}] by [sn].
      The prefix scan [attendance_records:{id}:*] selects the keys whose
      first component is [id] (a UUID string contains no [:]).
    - A Redis set is a [gset string]; SMEMBERS of a missing key is the
      empty set, so a key holding the empty set and a missing key are not
      distinguished. *)

From Stdlib Require Import ZArith Lia Ascii.
From stdpp Require Import base gmap sets list strings.

(* ================================================================= *)
(** ** Data model ([models/redis_models.py], [models/db_models.py]) *)

(** [db_models.User] *)
Record User := mkUser {
  user_school_number : string;
  user_full_name : string;
  role : string
}.

(** [redis_models.UserSessionRedis] (only the fields the core reads). *)
Record UserSessionRedis := mkUserSession {
  user_data : User;
  image_url : option string
}.

(** [redis_models.AttendanceRedis] *)
Record AttendanceRedis := mkAttendanceRedis {
  attendance_id : string;
  teacher_school_number : string;
  teacher_full_name : string;
  lesson_name : string;
  ip_address : option string;
  start_time : Z;
  end_time : Z;
  security_option : Z;
  is_deleted : bool;
  deletion_reason : option string;
  deletion_time : option Z
}.

(** [redis_models.AttendanceRecordRedis] (fields prefixed [rec_] where the
    name is shared with [AttendanceRedis]). *)
Record AttendanceRecordRedis := mkRecordRedis {
  rec_attendance_id : string;
  student_number : string;
  student_full_name : string;
  is_attended : bool;
  attendance_time : option Z;
  fail_reason : option string;
  rec_is_deleted : bool;
  rec_deletion_reason : option string;
  rec_deletion_time : option Z
}.

(** [db_models.Attendance], a row of [Attendances]. *)
Record Attendance := mkAttendance {
  db_attendance_id : string;
  db_teacher_school_number : string;
  db_lesson_name : string;
  db_ip_address : option string;
  db_start_time : Z;
  db_end_time : Z;
  db_security_option : Z;
  db_is_deleted : bool;
  db_deletion_reason : option string;
  db_deletion_time : option Z
}.

(** [db_models.AttendanceRecord], a row of [AttendanceRecords]. *)
Record AttendanceRecord := mkAttendanceRecord {
  dbr_attendance_id : string;
  dbr_student_number : string;
  dbr_is_attended : bool;
  dbr_attendance_time : option Z;
  dbr_fail_reason : option string;
  dbr_is_deleted : bool;
  dbr_deletion_reason : option string;
  dbr_deletion_time : option Z
}.

(** The ephemeral store. *)
Record Redis := mkRedis {
  r_users : gmap string UserSessionRedis;
  r_sessions : gmap string AttendanceRedis;
  r_name_index : gmap string (gset string);
  r_teacher_index : gmap string (gset string);
  r_records : gmap (string * string) AttendanceRecordRedis;
  r_verifications : gmap string (string * Z)
}.

(** The durable store: tables [Users], [Attendances], [AttendanceRecords]. *)
Record Db := mkDb {
  d_users : gmap string User;
  d_attendances : gmap string Attendance;
  d_records : gmap (string * string) AttendanceRecord
}.

Record World := mkWorld { w_redis : Redis; w_db : Db }.

(* ================================================================= *)
(** ** Redis primitives on sets *)

Definition smembers {K} `{Countable K} (m : gmap K (gset string)) (k : K) : gset string :=
  default ∅ (m !! k).

Definition sadd {K} `{Countable K} (k : K) (x : string) (m : gmap K (gset string))
  : gmap K (gset string) :=
  <[k := {[x]} ∪ smembers m k]> m.

Definition srem {K} `{Countable K} (k : K) (x : string) (m : gmap K (gset string))
  : gmap K (gset string) :=
  <[k := smembers m k ∖ {[x]}]> m.

(** Python's [set.pop()]: removes an element the hash table chooses. The
    choice is the oracle [k]: the element at position [k] (modulo the
    size) of the set's elements. *)
Definition set_pop (s : gset string) (k : nat) : option string :=
  let l := elements s in
  l !! (k mod length l).

(* ================================================================= *)
(** ** [RedisClient] ([db/redis_client.py]) *)

(** [f"attendance_index:name:{lesson_name}:{teacher_name}"] *)
Definition name_index_of (lesson teacher : string) : string :=
  (lesson +:+ ":" +:+ teacher)%string.

Definition name_index_key (a : AttendanceRedis) : string :=
  name_index_of (lesson_name a) (teacher_full_name a).

Definition save_attendance_session (a : AttendanceRedis) (r : Redis) : Redis :=
  mkRedis (r_users r)
    (<[attendance_id a := a]> (r_sessions r))
    (sadd (name_index_key a) (attendance_id a) (r_name_index r))
    (sadd (teacher_school_number a) (attendance_id a) (r_teacher_index r))
    (r_records r) (r_verifications r).

Definition get_attendance_session (r : Redis) (aid : string) : option AttendanceRedis :=
  r_sessions r !! aid.

Definition get_attendance_sessions_by_name (r : Redis) (lesson teacher : string)
  : list AttendanceRedis :=
  omap (get_attendance_session r)
    (elements (smembers (r_name_index r) (name_index_of lesson teacher))).

Definition get_attendance_session_of_teacher (r : Redis) (tsn : string) (now : Z)
    (pop : nat) : option AttendanceRedis :=
  match set_pop (smembers (r_teacher_index r) tsn) pop with
  | None => None
  | Some aid =>
      match get_attendance_session r aid with
      | Some s => if bool_decide (now < end_time s)%Z then Some s else None
      | None => None
      end
  end.

Definition delete_attendance_session (a : AttendanceRedis) (r : Redis) : Redis :=
  mkRedis (r_users r)
    (delete (attendance_id a) (r_sessions r))
    (srem (name_index_key a) (attendance_id a) (r_name_index r))
    (srem (teacher_school_number a) (attendance_id a) (r_teacher_index r))
    (r_records r) (r_verifications r).

Definition record_key (rec : AttendanceRecordRedis) : string * string :=
  (rec_attendance_id rec, student_number rec).

Definition add_attendance_record (rec : AttendanceRecordRedis) (r : Redis) : Redis :=
  mkRedis (r_users r) (r_sessions r) (r_name_index r) (r_teacher_index r)
    (<[record_key rec := rec]> (r_records r)) (r_verifications r).

Definition update_attendance_record := add_attendance_record.

(** [get_attendance_records]: the prefix scan [attendance_records:{id}:*]. *)
Definition get_attendance_records (r : Redis) (aid : string) : list AttendanceRecordRedis :=
  (map_to_list (filter (fun kv : (string * string) * AttendanceRecordRedis => kv.1.1 = aid)
                  (r_records r))).*2.

Definition get_attendance_record_by_id (r : Redis) (aid sn : string)
  : option AttendanceRecordRedis :=
  r_records r !! (aid, sn).

(** [self._redis.delete( *keys)] on record keys. *)
Definition delete_record_keys (ks : list (string * string)) (r : Redis) : Redis :=
  mkRedis (r_users r) (r_sessions r) (r_name_index r) (r_teacher_index r)
    (foldl (fun m k => delete k m) (r_records r) ks) (r_verifications r).

(** [str.split(':')] *)
Fixpoint split_colon (s : string) : list string :=
  match s with
  | EmptyString => [EmptyString]
  | String ch rest =>
      match split_colon rest with
      | [] => []
      | p :: ps =>
          if Ascii.eqb ch ":"%char then EmptyString :: p :: ps else String ch p :: ps
      end
  end.

(** [set(key, value, ex=300)]: the entry carries the instant it expires. *)
Definition VERIFICATION_TTL : Z := 300.

Definition map_verification_to_user (vid usn aid : string) (now : Z) (r : Redis) : Redis :=
  mkRedis (r_users r) (r_sessions r) (r_name_index r) (r_teacher_index r) (r_records r)
    (<[vid := ((usn +:+ ":" +:+ aid)%string, (now + VERIFICATION_TTL)%Z)]> (r_verifications r)).

(** [GET verification:{vid}] at [now]: a key past its expiry instant is
    gone (the store expires a key once [now > when]). *)
Definition get_user_and_attendance_for_verification (r : Redis) (vid : string) (now : Z)
  : option (string * string) :=
  match r_verifications r !! vid with
  | None => None
  | Some (v, exp) =>
      if bool_decide (exp < now)%Z then None
      else if bool_decide (v = EmptyString) then None
      else match split_colon v with
           | [usn; aid] => Some (usn, aid)
           | _ => None
           end
  end.

Definition delete_verification_mapping (vid : string) (r : Redis) : Redis :=
  mkRedis (r_users r) (r_sessions r) (r_name_index r) (r_teacher_index r) (r_records r)
    (delete vid (r_verifications r)).

Definition get_user_session (r : Redis) (sn : string) : option UserSessionRedis :=
  r_users r !! sn.

(* ================================================================= *)
(** ** [AsyncPostgresClient] ([db/db_client.py]) *)

(** [add_users]: [INSERT ... ON CONFLICT (user_school_number) DO NOTHING],
    one row after the other ([executemany]). *)
Definition insert_user (d : gmap string User) (u : User) : gmap string User :=
  match d !! user_school_number u with
  | Some _ => d
  | None => <[user_school_number u := u]> d
  end.

Definition add_users (us : list User) (d : Db) : Db :=
  match us with
  | [] => d
  | _ => mkDb (foldl insert_user (d_users d) us) (d_attendances d) (d_records d)
  end.

(** [add_attendances]: [ON CONFLICT (attendance_id) DO NOTHING]; the
    seven inserted columns, the deletion columns take their defaults. *)
Definition attendance_row (a : Attendance) : Attendance :=
  mkAttendance (db_attendance_id a) (db_teacher_school_number a) (db_lesson_name a)
    (db_ip_address a) (db_start_time a) (db_end_time a) (db_security_option a)
    false None None.

Definition insert_attendance (d : gmap string Attendance) (a : Attendance)
  : gmap string Attendance :=
  match d !! db_attendance_id a with
  | Some _ => d
  | None => <[db_attendance_id a := attendance_row a]> d
  end.

Definition add_attendances (xs : list Attendance) (d : Db) : Db :=
  match xs with
  | [] => d
  | _ => mkDb (d_users d) (foldl insert_attendance (d_attendances d) xs) (d_records d)
  end.

(** [add_attendance_records]: [ON CONFLICT (attendance_id, student_number)
    DO UPDATE SET is_attended, attendance_time, fail_reason from EXCLUDED,
    is_deleted = FALSE, deletion_reason = NULL, deletion_time = NULL]. *)
Definition dbr_key (x : AttendanceRecord) : string * string :=
  (dbr_attendance_id x, dbr_student_number x).

(** The row a fresh insert writes: the deletion columns take the table
    defaults. On conflict, the DO UPDATE sets every non-key column to the
    same values (the key columns are equal by the conflict), so an upsert
    always leaves exactly this row under the key. *)
Definition record_row (x : AttendanceRecord) : AttendanceRecord :=
  mkAttendanceRecord (dbr_attendance_id x) (dbr_student_number x)
    (dbr_is_attended x) (dbr_attendance_time x) (dbr_fail_reason x) false None None.

Definition upsert_record (d : gmap (string * string) AttendanceRecord) (x : AttendanceRecord)
  : gmap (string * string) AttendanceRecord :=
  <[dbr_key x := record_row x]> d.

Definition add_attendance_records (xs : list AttendanceRecord) (d : Db) : Db :=
  match xs with
  | [] => d
  | _ => mkDb (d_users d) (d_attendances d) (foldl upsert_record (d_records d) xs)
  end.

(* ================================================================= *)
(** ** The persistence sweep ([tasks/cron.py]) *)

(** [Attendance( **attendance_session.model_dump())]: the extra field
    [teacher_full_name] is dropped by pydantic. *)
Definition attendance_of_redis (a : AttendanceRedis) : Attendance :=
  mkAttendance (attendance_id a) (teacher_school_number a) (lesson_name a) (ip_address a)
    (start_time a) (end_time a) (security_option a)
    (is_deleted a) (deletion_reason a) (deletion_time a).

(** [AttendanceRecord( **rec.model_dump(include={...}))]: five fields, the
    others take the model defaults. *)
Definition record_of_redis (rec : AttendanceRecordRedis) : AttendanceRecord :=
  mkAttendanceRecord (rec_attendance_id rec) (student_number rec) (is_attended rec)
    (attendance_time rec) (fail_reason rec) false None None.

Definition teacher_user (a : AttendanceRedis) : User :=
  mkUser (teacher_school_number a) (teacher_full_name a) "Teacher".

Definition student_user (rec : AttendanceRecordRedis) : User :=
  mkUser (student_number rec) (student_full_name rec) "Student".

(** Steps (a)-(d): the durable writes, in their order. *)
Definition sweep_persist (s : AttendanceRedis) (recs : list AttendanceRecordRedis) (d : Db) : Db :=
  let d1 := add_users [teacher_user s] d in
  let d2 := match recs with [] => d1 | _ => add_users (map student_user recs) d1 end in
  let d3 := add_attendances [attendance_of_redis s] d2 in
  match recs with [] => d3 | _ => add_attendance_records (map record_of_redis recs) d3 end.

(** Step (e): the Redis cleanup. *)
Definition sweep_cleanup (s : AttendanceRedis) (recs : list AttendanceRecordRedis) (r : Redis)
  : Redis :=
  let r1 := delete_attendance_session s r in
  let keys := map (fun rec => (attendance_id s, student_number rec)) recs in
  match keys with [] => r1 | _ => delete_record_keys keys r1 end.

(** The body of the [async for session_key in scan_iter(...)] loop. *)
Definition process_session_key (now : Z) (w : World) (key : string) : World :=
  match get_attendance_session (w_redis w) key with
  | None => w
  | Some s =>
      if bool_decide (now <= end_time s)%Z then w
      else
        let recs := get_attendance_records (w_redis w) (attendance_id s) in
        mkWorld (sweep_cleanup s recs (w_redis w)) (sweep_persist s recs (w_db w))
  end.

(** [unified_persistence_task]: one pass over the session keys present at
    the start of the scan. *)
Definition unified_persistence_task (now : Z) (w : World) : World :=
  foldl (process_session_key now) w (elements (dom (r_sessions (w_redis w)))).

(** The shape every write of the code keeps: a session blob sits under its
    own id, a record blob under its own (attendance id, student number). *)
Definition redis_wf (r : Redis) : Prop :=
  (∀ k s, r_sessions r !! k = Some s → attendance_id s = k) ∧
  (∀ k rec, r_records r !! k = Some rec → k = record_key rec).

(* ================================================================= *)
(** ** [TeacherService] ([services/teacher_service.py]) *)

Inductive ServiceErr :=
| ServiceError (msg : string)
| AuthorizationError (msg : string).

Definition set_end_time (a : AttendanceRedis) (t : Z) : AttendanceRedis :=
  mkAttendanceRedis (attendance_id a) (teacher_school_number a) (teacher_full_name a)
    (lesson_name a) (ip_address a) (start_time a) t (security_option a)
    (is_deleted a) (deletion_reason a) (deletion_time a).

(** [start_attendance]; [new_id] is the value [uuid4()] draws, [pop] the
    oracle of [set.pop()] inside the teacher-index lookup. *)
Definition start_attendance (r : Redis) (teacher : User) (lesson : string)
    (ip : option string) (st et sec : Z) (new_id : string) (now : Z) (pop : nat)
  : (ServiceErr + AttendanceRedis) * Redis :=
  match get_attendance_session_of_teacher r (user_school_number teacher) now pop with
  | Some _ =>
      (inl (ServiceError "You already have an active attendance session. Please end it first."), r)
  | None =>
      let a := mkAttendanceRedis new_id (user_school_number teacher) (user_full_name teacher)
                 lesson ip st et sec false None None in
      (inr a, save_attendance_session a r)
  end.

(** [finish_attendance]: [None] is the normal return. *)
Definition finish_attendance (r : Redis) (teacher : User) (aid : string) (now : Z)
  : option ServiceErr * Redis :=
  match get_attendance_session r aid with
  | Some s =>
      if bool_decide (teacher_school_number s = user_school_number teacher) then
        (None, save_attendance_session (set_end_time s now) r)
      else (Some (AuthorizationError "Attendance not found or you are not authorized to end it."), r)
  | None => (Some (AuthorizationError "Attendance not found or you are not authorized to end it."), r)
  end.

(** [fail_student_in_live_attendance] (the enrichment with the student's
    [User] is omitted from the returned record). *)
Definition fail_student_in_live_attendance (r : Redis) (aid sn reason : string)
  : option AttendanceRecordRedis * Redis :=
  match get_attendance_record_by_id r aid sn with
  | None => (None, r)
  | Some rec =>
      let rec' := mkRecordRedis (rec_attendance_id rec) (student_number rec)
                    (student_full_name rec) false (attendance_time rec) (Some reason)
                    (rec_is_deleted rec) (rec_deletion_reason rec) (rec_deletion_time rec) in
      (Some rec', update_attendance_record rec' r)
  end.

(* ================================================================= *)
(** ** IP addresses and [verify_wifi] ([tools/wifi_verifier.py]) *)

(** The value [ipaddress.ip_address] returns: the integer [_ip] and the
    class. *)
Inductive IPAddress :=
| IPv4Address (v : Z)
| IPv6Address (v : Z).

(** [_BaseNetwork.netmask] of a [/prefix] network over [bits]-bit
    addresses: [((1 << bits) - 1) ^ ((1 << (bits - prefix)) - 1)]. *)
Definition netmask (bits prefix : Z) : Z :=
  Z.lxor (Z.ones bits) (Z.ones (bits - prefix)).

(** [addr in IPvXNetwork(f"{net}/prefix", strict=False)]: the network
    address is [net & netmask], and [__contains__] tests
    [other._ip & netmask == network_address._ip]. *)
Definition in_network (bits prefix net other : Z) : bool :=
  Z.eqb (Z.land other (netmask bits prefix)) (Z.land net (netmask bits prefix)).

(** A dotted-quad IPv4 parser (decimal octets 0-255 without leading
    zeros), one concrete instance of [ipaddress.ip_address] on IPv4 text. *)
Definition digit_val (c : ascii) : option Z :=
  let n := Z.of_nat (nat_of_ascii c) in
  if bool_decide (48 <= n <= 57)%Z then Some (n - 48)%Z else None.

Fixpoint parse_decimal (s : string) (acc : Z) (len : nat) : option (Z * nat) :=
  match s with
  | EmptyString => Some (acc, len)
  | String c rest =>
      match digit_val c with
      | Some d => parse_decimal rest (acc * 10 + d)%Z (S len)
      | None => None
      end
  end.

Definition parse_octet (s : string) : option Z :=
  match parse_decimal s 0 0 with
  | Some (v, n) =>
      if bool_decide (1 <= n <= 3)%nat && bool_decide (v <= 255)%Z
         && negb (bool_decide (2 <= n)%nat && bool_decide (String.get 0 s = Some "0"%char))
      then Some v else None
  | None => None
  end.

Fixpoint split_dot (s : string) : list string :=
  match s with
  | EmptyString => [EmptyString]
  | String ch rest =>
      match split_dot rest with
      | [] => []
      | p :: ps =>
          if Ascii.eqb ch "."%char then EmptyString :: p :: ps else String ch p :: ps
      end
  end.

Definition parse_ipv4 (s : string) : option IPAddress :=
  match split_dot s with
  | [a; b; c; d] =>
      match parse_octet a, parse_octet b, parse_octet c, parse_octet d with
      | Some a', Some b', Some c', Some d' =>
          Some (IPv4Address (((a' * 256 + b') * 256 + c') * 256 + d'))%Z
      | _, _, _, _ => None
      end
  | _ => None
  end.

Section Wifi.

(** [ipaddress.ip_address] of the Python standard library: [None] when it
    raises [ValueError]. *)
Variable ip_address_of : string → option IPAddress.

(** [verify_wifi(attendance, ip_address)]; only [attendance.ip_address]
    is read. *)
Definition verify_wifi (session_ip : option string) (ip : string) : bool :=
  match session_ip with
  | None => false
  | Some sip =>
      if bool_decide (sip = EmptyString) || bool_decide (ip = EmptyString) then false
      else if bool_decide (sip = ip) then true
      else
        match ip_address_of sip with
        | None => bool_decide (sip = ip)
        | Some session_addr =>
            match ip_address_of ip with
            | None => bool_decide (sip = ip)
            | Some student_addr =>
                match session_addr, student_addr with
                | IPv6Address x, IPv6Address y => in_network 128 64 x y
                | IPv4Address x, IPv4Address y => in_network 32 24 x y
                | _, _ => false
                end
            end
        end
  end.

(** The rule of the spec, written from its words: exact match, or the same
    /24 for two IPv4 addresses, or the same /64 for two IPv6 addresses
    (same leading 24 resp. 64 bits). *)
Definition same_network_spec (a b : string) : bool :=
  bool_decide (a = b) ||
  match ip_address_of a, ip_address_of b with
  | Some (IPv4Address x), Some (IPv4Address y) => Z.eqb (Z.shiftr x 8) (Z.shiftr y 8)
  | Some (IPv6Address x), Some (IPv6Address y) => Z.eqb (Z.shiftr x 64) (Z.shiftr y 64)
  | _, _ => false
  end.

End Wifi.

(* ================================================================= *)
(** ** [StudentService.attend_to_attendance] ([services/student_service.py]) *)

(** What the outside world answers during one attempt: the profile image
    the campus directory returns ([None]: [AksisSessionError]), the id
    [uuid4()] draws in [submit_face_verification_job], and whether the
    verifier accepts the job ([raise_for_status] passes). *)
Record ExternalIO := mkExternalIO {
  io_reference_image : option string;
  io_verification_id : string;
  io_submit_accepted : bool
}.

(** Calls leaving the process. *)
Inductive Event :=
| EvDownloadReference (url : string)
| EvSubmitJob (verification_id : string) (student : string) (attendance : string).

Definition truthy (s : option string) : bool :=
  match s with None => false | Some v => negb (bool_decide (v = EmptyString)) end.

Definition PENDING : string := "FACE_RECOGNITION_PENDING".

Section Attend.

Variable ip_address_of : string → option IPAddress.

(** [submit_face_verification_job]: map the correlation id first, then
    post; on failure the mapping is deleted and [VerificationError] raised
    ([inl tt]). *)
Definition submit_face_verification_job (student : User) (aid : string) (io : ExternalIO)
    (now : Z) (r : Redis) : (unit + unit) * Redis * list Event :=
  let vid := io_verification_id io in
  let r1 := map_verification_to_user vid (user_school_number student) aid now r in
  let ev := [EvSubmitJob vid (user_school_number student) aid] in
  if io_submit_accepted io then (inr tt, r1, ev)
  else (inl tt, delete_verification_mapping vid r1, ev).

(** The tier-3 block, run when [security_option == 3 and fail_reason is
    None]: returns the new [fail_reason], or [inl] for an exception that
    escapes to the outer [except Exception]. *)
Definition face_check (r : Redis) (student : User) (act : AttendanceRedis)
    (photo : option string) (now : Z) (io : ExternalIO)
  : (unit + option string) * Redis * list Event :=
  if negb (truthy photo) then
    (inr (Some "FACE_VERIFICATION_REQUIRED_BUT_IMAGE_MISSING"), r, [])
  else
    match get_user_session r (user_school_number student) with
    | None => (inr (Some "REFERENCE_IMAGE_NOT_FOUND"), r, [])
    | Some us =>
        match image_url us with
        | None => (inr (Some "REFERENCE_IMAGE_NOT_FOUND"), r, [])
        | Some url =>
            if bool_decide (url = EmptyString) then (inr (Some "REFERENCE_IMAGE_NOT_FOUND"), r, [])
            else
              match io_reference_image io with
              | None => (inl tt, r, [EvDownloadReference url])
              | Some _ =>
                  match submit_face_verification_job student (attendance_id act) io now r with
                  | (inr _, r', evs) => (inr (Some PENDING), r', EvDownloadReference url :: evs)
                  | (inl _, r', evs) =>
                      (inr (Some "FACE_VERIFICATION_SUBMISSION_FAILED"), r',
                       EvDownloadReference url :: evs)
                  end
              end
        end
    end.

Definition attend_to_attendance (r : Redis) (student : User) (aid : string)
    (student_ip : option string) (photo : option string) (now : Z) (io : ExternalIO)
  : (ServiceErr + AttendanceRecordRedis) * Redis * list Event :=
  match get_attendance_session r aid with
  | None => (inl (ServiceError "This attendance session does not exist."), r, [])
  | Some act =>
      if bool_decide (end_time act <= now)%Z then
        (inl (ServiceError "This attendance session has already ended."), r, [])
      else
        let blocked :=
        match get_attendance_record_by_id r aid (user_school_number student) with
        | Some ex =>
            if is_attended ex then
              Some (inl (ServiceError "You have already successfully joined this session."), r, [])
            else if bool_decide (fail_reason ex = Some PENDING) then
              Some (inl (ServiceError "Your attendance is already pending verification. Please wait."), r, [])
            else None
        | None => None
        end in
        match blocked with
        | Some res => res
        | None =>
            let wifi_fail :=
              bool_decide (2 <= security_option act)%Z &&
              (negb (truthy student_ip) ||
               negb (verify_wifi ip_address_of (ip_address act) (default EmptyString student_ip))) in
            let fail0 := if wifi_fail then Some "WIFI_FAILED" else None in
            let '(checked, r1, evs) :=
              if bool_decide (security_option act = 3)%Z && bool_decide (fail0 = None)
              then face_check r student act photo now io
              else (inr fail0, r, []) in
            match checked with
            | inl _ =>
                (inl (ServiceError "An unexpected error occurred during the attendance process."), r1, evs)
            | inr fail =>
                let ok := bool_decide (fail = None) in
                let new_record :=
                  mkRecordRedis (attendance_id act) (user_school_number student)
                    (user_full_name student) ok (if ok then Some now else None) fail
                    false None None in
                (inr new_record, add_attendance_record new_record r1, evs)
            end
        end
  end.

End Attend.

(* ================================================================= *)
(** ** The verifier callback ([api/webhooks.py]) *)

(** [VerificationResultPayload] *)
Record VerificationResultPayload := mkPayload {
  verification_passed : bool;
  reason : string
}.

Inductive WebhookStatus :=
| StatusNotFoundOrAlreadyProcessed   (* "Islem bulunamadi veya zaten islenmis." *)
| StatusSuccess.                     (* "success" *)

Inductive WebhookResponse :=
| HttpError (code : Z)
| HttpOk (status : WebhookStatus).

(** [bytes.hex()] / [hexdigest()]: two lowercase hex digits per byte. *)
Definition hex_char (n : nat) : ascii :=
  ascii_of_nat (if n <? 10 then 48 + n else 87 + n).

Fixpoint hexdigest (d : string) : string :=
  match d with
  | EmptyString => EmptyString
  | String c rest =>
      String (hex_char (nat_of_ascii c / 16)) (String (hex_char (nat_of_ascii c mod 16))
        (hexdigest rest))
  end.

(** [str.isascii()]. A header value is the latin-1 decoding of its bytes,
    one character per byte. *)
Fixpoint str_isascii (s : string) : bool :=
  match s with
  | EmptyString => true
  | String c rest => (nat_of_ascii c <? 128) && str_isascii rest
  end.

(** [hmac.compare_digest(a, b)] on two [str]: [TypeError] ([None]) when
    either holds a non-ASCII character, otherwise whether they are equal
    (the constant running time is not modelled). *)
Definition py_compare_digest (a b : string) : option bool :=
  if str_isascii a && str_isascii b then Some (bool_decide (a = b)) else None.

Section Webhook.

(** [hmac.new(key, msg, sha256).digest()] (the raw 32 bytes, whose
    [hexdigest] the handler computes), the pre-shared secret,
    [json.loads] followed by [VerificationResultPayload( **data['overall_result'])]
    ([None]: [JSONDecodeError], [ValidationError] or [KeyError]), and
    FastAPI's validation of the [verification_id: uuid.UUID] path parameter
    followed by [str(verification_id)] ([None]: not a UUID). *)
Variable hmac_sha256 : string → string → string.
Variable WEBHOOK_SECRET_KEY : string.
Variable parse_payload : string → option VerificationResultPayload.
Variable uuid_of_path : string → option string.

Definition apply_verdict (p : VerificationResultPayload) (rec : AttendanceRecordRedis) (now : Z)
  : AttendanceRecordRedis :=
  if verification_passed p then
    mkRecordRedis (rec_attendance_id rec) (student_number rec) (student_full_name rec)
      true (Some now) None
      (rec_is_deleted rec) (rec_deletion_reason rec) (rec_deletion_time rec)
  else
    mkRecordRedis (rec_attendance_id rec) (student_number rec) (student_full_name rec)
      false (attendance_time rec) (Some ("FACE_VERIFICATION_FAILED: " +:+ reason p)%string)
      (rec_is_deleted rec) (rec_deletion_reason rec) (rec_deletion_time rec).

(** [update_attendance_from_webhook], from the body of the handler on; an
    exception that escapes it ([TypeError] of [compare_digest]) is answered
    500. [now] is both [datetime.now] and the store's clock. *)
Definition update_attendance_from_webhook (r : Redis) (verification_id raw_body signature : string)
    (now : Z) : WebhookResponse * Redis :=
  let expected_signature := hexdigest (hmac_sha256 WEBHOOK_SECRET_KEY raw_body) in
  match py_compare_digest expected_signature signature with
  | None => (HttpError 500, r)
  | Some false => (HttpError 403, r)
  | Some true =>
    match parse_payload raw_body with
    | None => (HttpError 422, r)
    | Some payload =>
        match get_user_and_attendance_for_verification r verification_id now with
        | None => (HttpOk StatusNotFoundOrAlreadyProcessed, r)
        | Some (usn, aid) =>
            match get_attendance_record_by_id r aid usn with
            | None => (HttpError 404, delete_verification_mapping verification_id r)
            | Some rec =>
                let r1 := update_attendance_record (apply_verdict payload rec now) r in
                (HttpOk StatusSuccess, delete_verification_mapping verification_id r1)
            end
        end
    end
  end.


End Webhook.

(* ================================================================= *)
(** ** Lifecycle of sessions across both stores *)

(** The system: both stores, the session the sweep is in the middle of
    (its durable writes done, its Redis cleanup not yet), and the ghost set
    of every session id ever created. *)
Record Sys := mkSys {
  sys_world : World;
  sys_inflight : option (AttendanceRedis * list AttendanceRecordRedis);
  sys_created : gset string
}.

Definition with_redis (s : Sys) (r : Redis) : Sys :=
  mkSys (mkWorld r (w_db (sys_world s))) (sys_inflight s) (sys_created s).

(** One atomic step of some actor. The sweep of one session is split at
    its [await]s into the durable writes and the Redis cleanup; an
    exception between them ([except Exception: log]) abandons the cleanup.
    Writes of student records (attend, webhook, manual accept/fail) touch
    only record keys; readers change nothing. *)
Inductive step : Sys → Sys → Prop :=
| StepStart (s : Sys) teacher lesson ip st et sec new_id now pop a r' :
    new_id ∉ sys_created s →
    start_attendance (w_redis (sys_world s)) teacher lesson ip st et sec new_id now pop
      = (inr a, r') →
    step s (mkSys (mkWorld r' (w_db (sys_world s))) (sys_inflight s) ({[new_id]} ∪ sys_created s))
| StepFinish (s : Sys) teacher aid now r' :
    finish_attendance (w_redis (sys_world s)) teacher aid now = (None, r') →
    step s (with_redis s r')
| StepRecordWrite (s : Sys) rec :
    step s (with_redis s (add_attendance_record rec (w_redis (sys_world s))))
| StepSweepPersist (s : Sys) now key a :
    sys_inflight s = None →
    get_attendance_session (w_redis (sys_world s)) key = Some a →
    (end_time a < now)%Z →
    let recs := get_attendance_records (w_redis (sys_world s)) (attendance_id a) in
    step s (mkSys (mkWorld (w_redis (sys_world s)) (sweep_persist a recs (w_db (sys_world s))))
               (Some (a, recs)) (sys_created s))
| StepSweepCleanup (s : Sys) a recs :
    sys_inflight s = Some (a, recs) →
    step s (mkSys (mkWorld (sweep_cleanup a recs (w_redis (sys_world s))) (w_db (sys_world s)))
               None (sys_created s))
| StepSweepAbort (s : Sys) x :
    sys_inflight s = Some x →
    step s (mkSys (sys_world s) None (sys_created s)).

Definition empty_redis : Redis := mkRedis ∅ ∅ ∅ ∅ ∅ ∅.
Definition empty_db : Db := mkDb ∅ ∅ ∅.
Definition init_sys : Sys := mkSys (mkWorld empty_redis empty_db) None ∅.

Definition reachable (s : Sys) : Prop := rtc step init_sys s.

Definition live_ids (s : Sys) : gset string := dom (r_sessions (w_redis (sys_world s))).
Definition durable_ids (s : Sys) : gset string := dom (d_attendances (w_db (sys_world s))).

(** Two worlds agree on everything the code keeps about session [id]:
    its blob, its membership in every index set, its live records, its
    durable row and its durable records. *)
Definition agree_on (id : string) (w1 w2 : World) : Prop :=
  r_sessions (w_redis w1) !! id = r_sessions (w_redis w2) !! id ∧
  (∀ sn, r_records (w_redis w1) !! (id, sn) = r_records (w_redis w2) !! (id, sn)) ∧
  (∀ nk, (id ∈ smembers (r_name_index (w_redis w1)) nk ↔
          id ∈ smembers (r_name_index (w_redis w2)) nk)) ∧
  (∀ tk, (id ∈ smembers (r_teacher_index (w_redis w1)) tk ↔
          id ∈ smembers (r_teacher_index (w_redis w2)) tk)) ∧
  d_attendances (w_db w1) !! id = d_attendances (w_db w2) !! id ∧
  (∀ sn, d_records (w_db w1) !! (id, sn) = d_records (w_db w2) !! (id, sn)).

(** Session [id] (blob [s] in [w]) has been migrated in [w']: no live blob,
    no index entry, no live record key; a durable row (the session's own
    row when there was none before); every live record of [w] as a durable
    record. *)
Definition swept_into_db (id : string) (s : AttendanceRedis) (w w' : World) : Prop :=
  r_sessions (w_redis w') !! id = None ∧
  (id ∉ smembers (r_name_index (w_redis w')) (name_index_key s)) ∧
  (id ∉ smembers (r_teacher_index (w_redis w')) (teacher_school_number s)) ∧
  (∀ sn, r_records (w_redis w') !! (id, sn) = None) ∧
  is_Some (d_attendances (w_db w') !! id) ∧
  (d_attendances (w_db w) !! id = None →
   d_attendances (w_db w') !! id = Some (attendance_row (attendance_of_redis s))) ∧
  (∀ sn rec, r_records (w_redis w) !! (id, sn) = Some rec →
   d_records (w_db w') !! (id, sn) = Some (record_of_redis rec)).

(** The claim as the spec words it: a created id is in exactly one store. *)
Definition exactly_one_store (s : Sys) : Prop :=
  ∀ id, id ∈ sys_created s → (id ∈ live_ids s ↔ id ∉ durable_ids s).

(** Never neither: a created id is in at least one store. *)
Definition in_some_store (s : Sys) : Prop :=
  ∀ id, id ∈ sys_created s → id ∈ live_ids s ∨ id ∈ durable_ids s.

(** The inductive invariant: never neither, and the session the sweep is
    in the middle of already has its durable row. *)
Definition sys_inv (s : Sys) : Prop :=
  in_some_store s ∧
  (∀ a recs, sys_inflight s = Some (a, recs) → attendance_id a ∈ durable_ids s).

(** The existing record, if any, lets the student run the pipeline: it is
    neither attended nor pending. *)
Definition may_attempt (r : Redis) (aid sn : string) : Prop :=
  match get_attendance_record_by_id r aid sn with
  | Some ex => is_attended ex = false ∧ fail_reason ex ≠ Some PENDING
  | None => True
  end.

(** [Python]'s [ipaddress] integers are within their width. *)
Definition ip_in_range (ip_address_of : string → option IPAddress) : Prop :=
  (∀ s v, ip_address_of s = Some (IPv4Address v) → (0 <= v < 2 ^ 32)%Z) ∧
  (∀ s v, ip_address_of s = Some (IPv6Address v) → (0 <= v < 2 ^ 128)%Z).

(* ================================================================= *)
(** ** Concrete fixtures *)

Definition demo_teacher : User := mkUser "T-101" "Dr. Integration" "Teacher".
Definition demo_student : User := mkUser "S-201" "Student Alpha" "Student".

Definition demo_session : AttendanceRedis :=
  mkAttendanceRedis "a1" "T-101" "Dr. Integration" "Integration Lesson" (Some "10.0.1.5")
    0 100 2 false None None.

Definition demo_record : AttendanceRecordRedis :=
  mkRecordRedis "a1" "S-201" "Student Alpha" true (Some 50%Z) None false None None.

Definition demo_world : World :=
  mkWorld (save_attendance_session demo_session (add_attendance_record demo_record empty_redis))
    empty_db.

(** The system after the teacher opens [demo_session] at time 0 and the
    sweep, at time 200, has done its durable writes for it. *)
Definition sys_after_start : Sys :=
  mkSys (mkWorld (save_attendance_session demo_session empty_redis) empty_db) None {["a1"]}.

Definition sys_mid_sweep : Sys :=
  let r := save_attendance_session demo_session empty_redis in
  let recs := get_attendance_records r "a1" in
  mkSys (mkWorld r (sweep_persist demo_session recs empty_db)) (Some (demo_session, recs)) {["a1"]}.

(** The open [demo_session] with no records yet, and a verifier that
    answers and accepts the job. *)
Definition demo_live_redis : Redis := save_attendance_session demo_session empty_redis.

Definition demo_io : ExternalIO := mkExternalIO (Some "reference-bytes") "v1" true.

(** The same session opened at tier 3 (network and face check). *)
Definition demo_session_t3 : AttendanceRedis :=
  mkAttendanceRedis "a3" "T-101" "Dr. Integration" "Integration Lesson" (Some "10.0.1.5")
    0 100 3 false None None.

Definition demo_live_redis_t3 : Redis := save_attendance_session demo_session_t3 empty_redis.

(** A tier-3 attempt of [demo_student], submitted at time 40, awaiting its
    verdict under the correlation id ["v1"]; and stand-ins for the raw
    signing function, the payload parser and the path validation of the
    callback (the ids of the fixtures start with ["v"]). *)
Definition demo_pending_record : AttendanceRecordRedis :=
  mkRecordRedis "a3" "S-201" "Student Alpha" false None (Some PENDING) false None None.

Definition demo_pending_redis : Redis :=
  map_verification_to_user "v1" "S-201" "a3" 40
    (add_attendance_record demo_pending_record demo_live_redis_t3).

Definition demo_hmac (key msg : string) : string := (key +:+ "|" +:+ msg)%string.

Definition demo_parse (body : string) : option VerificationResultPayload :=
  Some (mkPayload (bool_decide (body = "passed")) body).


(** Two records agree on everything but [is_attended],
    [attendance_time] and [fail_reason]. *)
Definition same_record_identity (a b : AttendanceRecordRedis) : Prop :=
  rec_attendance_id a = rec_attendance_id b ∧ student_number a = student_number b ∧
  student_full_name a = student_full_name b ∧ rec_is_deleted a = rec_is_deleted b ∧
  rec_deletion_reason a = rec_deletion_reason b ∧ rec_deletion_time a = rec_deletion_time b.

(** One teacher's morning, before the five-minute sweep runs: session
    ["a1"] opened at 0 and finished at 10, then ["a2"] opened at 20 until
    1000. The teacher index keeps the finished ["a1"] next to ["a2"]. *)
Definition trace_lesson_start (r : Redis) (id : string) (t et : Z) (pop : nat)
  : (ServiceErr + AttendanceRedis) * Redis :=
  start_attendance r demo_teacher "Integration Lesson" (Some "10.0.1.5") t et 2 id t pop.

Definition trace_r1 : Redis := (trace_lesson_start empty_redis "a1" 0 100 0).2.
Definition trace_r2 : Redis := (finish_attendance trace_r1 demo_teacher "a1" 10).2.
Definition trace_r3 : Redis := (trace_lesson_start trace_r2 "a2" 20 1000 0).2.

Definition trace_session (id : string) (t et : Z) : AttendanceRedis :=
  mkAttendanceRedis id "T-101" "Dr. Integration" "Integration Lesson" (Some "10.0.1.5")
    t et 2 false None None.

(* ================================================================= *)
(** ** Further operations of the services and clients *)

(** [StudentService.find_active_sessions_by_name]: the sessions of the
    name index, those with [end_time > now]. *)
Definition find_active_sessions_by_name (r : Redis) (lesson teacher : string) (now : Z)
  : list AttendanceRedis :=
  filter (fun s => (now < end_time s)%Z) (get_attendance_sessions_by_name r lesson teacher).

(** [StudentService.get_my_attendance_status]: no session is [None], an
    ended one an error ([ServiceError] is re-raised as it is). *)
Definition get_my_attendance_status (r : Redis) (aid : string) (student : User) (now : Z)
  : ServiceErr + option AttendanceRecordRedis :=
  match get_attendance_session r aid with
  | None => inr None
  | Some s =>
      if bool_decide (end_time s <= now)%Z then
        inl (ServiceError "This attendance session has already ended.")
      else inr (get_attendance_record_by_id r aid (user_school_number student))
  end.

(** [TeacherService.accept_student_attendance] (the enrichment of a Redis
    record always yields one entry, returned here as the record). *)
Definition accept_student_attendance (r : Redis) (aid sn : string) (now : Z)
  : option AttendanceRecordRedis * Redis :=
  match get_attendance_record_by_id r aid sn with
  | None => (None, r)
  | Some rec =>
      let rec' := mkRecordRedis (rec_attendance_id rec) (student_number rec)
                    (student_full_name rec) true (Some now) None
                    (rec_is_deleted rec) (rec_deletion_reason rec) (rec_deletion_time rec) in
      (Some rec', update_attendance_record rec' r)
  end.

(** How the live store's keys and indexes hang together: every blob sits
    under its own id, every id a blob or an index holds has been created,
    an index entry of a stored blob sits under that blob's own lesson,
    teacher name and teacher number, and every blob is in both its
    indexes. *)
Definition index_inv (r : Redis) (created : gset string) : Prop :=
  (∀ k a, r_sessions r !! k = Some a → attendance_id a = k) ∧
  (∀ id a, r_sessions r !! id = Some a → id ∈ created) ∧
  (∀ nk id, id ∈ smembers (r_name_index r) nk → id ∈ created) ∧
  (∀ tk id, id ∈ smembers (r_teacher_index r) tk → id ∈ created) ∧
  (∀ nk id a, id ∈ smembers (r_name_index r) nk → r_sessions r !! id = Some a →
              name_index_key a = nk) ∧
  (∀ tk id a, id ∈ smembers (r_teacher_index r) tk → r_sessions r !! id = Some a →
              teacher_school_number a = tk) ∧
  (∀ id a, r_sessions r !! id = Some a →
           id ∈ smembers (r_name_index r) (name_index_key a) ∧
           id ∈ smembers (r_teacher_index r) (teacher_school_number a)).

(** [demo_live_redis_t3] with [demo_student] logged in and a reference
    image on file. *)
Definition demo_reference_url : string := "https://cdn.example.org/ref/S-201.jpg".

Definition demo_t3_redis : Redis :=
  mkRedis (<["S-201" := mkUserSession demo_student (Some demo_reference_url)]> ∅)
    (r_sessions demo_live_redis_t3) (r_name_index demo_live_redis_t3)
    (r_teacher_index demo_live_redis_t3) (r_records demo_live_redis_t3)
    (r_verifications demo_live_redis_t3).

(** The record a tier-2 attempt of [demo_student] on [demo_session] at
    time 50 from the session's /24 writes. *)
Definition demo_attempt_record : AttendanceRecordRedis :=
  mkRecordRedis "a1" "S-201" "Student Alpha" true (Some 50%Z) None false None None.

(** The same session opened at tier 1 (no check). *)
Definition demo_session_t1 : AttendanceRedis :=
  mkAttendanceRedis "a4" "T-101" "Dr. Integration" "Integration Lesson" (Some "10.0.1.5")
    0 100 1 false None None.

Definition demo_live_redis_t1 : Redis := save_attendance_session demo_session_t1 empty_redis.

(* ================================================================= *)
(** ** Reads and updates of the durable store ([db/db_client.py]) *)

(** [get_attendance_by_id]: [WHERE attendance_id = $1 AND is_deleted = FALSE]
    (the table is keyed by its primary key [attendance_id]). *)
Definition get_attendance_by_id (d : Db) (aid : string) : option Attendance :=
  match d_attendances d !! aid with
  | Some a => if db_is_deleted a then None else Some a
  | None => None
  end.

(** [get_attendances]: [WHERE teacher_school_number = $1 AND is_deleted =
    FALSE], in the order the table yields its rows. *)
Definition get_attendances (d : Db) (tsn : string) : list Attendance :=
  filter (fun a => db_teacher_school_number a = tsn ∧ db_is_deleted a = false)
    (map_to_list (d_attendances d)).*2.

(** [AsyncPostgresClient.get_attendance_records]: [WHERE attendance_id = $1
    AND is_deleted = FALSE]. *)
Definition db_get_attendance_records (d : Db) (aid : string) : list AttendanceRecord :=
  filter (fun x => dbr_attendance_id x = aid ∧ dbr_is_deleted x = false)
    (map_to_list (d_records d)).*2.

(** The command tag [connection.execute] returns for an [UPDATE] whose
    [WHERE] names a whole primary key: at most one row matches. *)
Definition update_tag (matched : bool) : string :=
  if matched then "UPDATE 1" else "UPDATE 0".

(** An [UPDATE AttendanceRecords SET ... WHERE attendance_id = $1 AND
    student_number = $2]: [f] computes the new row from the old one. *)
Definition update_record_row (f : AttendanceRecord → AttendanceRecord) (aid sn : string)
    (d : Db) : string * Db :=
  match d_records d !! (aid, sn) with
  | None => (update_tag false, d)
  | Some x => (update_tag true, mkDb (d_users d) (d_attendances d) (<[(aid, sn) := f x]> (d_records d)))
  end.

(** [accept_historical_attendance_record]: [is_attended = TRUE,
    attendance_time = now, fail_reason = NULL], the deletion columns
    cleared. *)
Definition accept_historical_attendance_record (d : Db) (aid sn : string) (now : Z)
  : string * Db :=
  update_record_row (fun x => mkAttendanceRecord (dbr_attendance_id x) (dbr_student_number x)
                                true (Some now) None false None None) aid sn d.

(** [fail_historical_attendance_record]: [is_attended = FALSE,
    attendance_time = NULL, fail_reason = reason], the deletion columns
    cleared. *)
Definition fail_historical_attendance_record (d : Db) (aid sn reason : string)
  : string * Db :=
  update_record_row (fun x => mkAttendanceRecord (dbr_attendance_id x) (dbr_student_number x)
                                false None (Some reason) false None None) aid sn d.

(** [delete_attendance_record]: the soft delete of one record. *)
Definition delete_attendance_record (d : Db) (aid sn reason : string) (now : Z)
  : string * Db :=
  update_record_row (fun x => mkAttendanceRecord (dbr_attendance_id x) (dbr_student_number x)
                                (dbr_is_attended x) (dbr_attendance_time x) (dbr_fail_reason x)
                                true (Some reason) (Some now)) aid sn d.

(** [AsyncPostgresClient.delete_attendance]: the soft delete of a session
    row. *)
Definition db_delete_attendance (d : Db) (aid reason : string) (now : Z) : string * Db :=
  match d_attendances d !! aid with
  | None => (update_tag false, d)
  | Some a =>
      let a' := mkAttendance (db_attendance_id a) (db_teacher_school_number a)
                  (db_lesson_name a) (db_ip_address a) (db_start_time a) (db_end_time a)
                  (db_security_option a) true (Some reason) (Some now) in
      (update_tag true, mkDb (d_users d) (<[aid := a']> (d_attendances d)) (d_records d))
  end.

(** The shape every write of the durable store keeps: a row sits under its
    own primary key. *)
Definition db_wf (d : Db) : Prop :=
  map_Forall (fun k a => db_attendance_id a = k) (d_attendances d) ∧
  map_Forall (fun k x => k = dbr_key x) (d_records d).

#[global] Instance db_wf_dec d : Decision (db_wf d).
Proof. unfold db_wf. apply _. Defined.

(* ================================================================= *)
(** ** The durable side of [TeacherService] ([services/teacher_service.py]) *)

(** [get_and_verify_attendance_owner]: the live session first, the
    durable row otherwise. *)
Definition get_and_verify_attendance_owner (r : Redis) (d : Db) (aid : string) (teacher : User)
  : ServiceErr + (AttendanceRedis + Attendance) :=
  match get_attendance_session r aid with
  | Some live =>
      if bool_decide (teacher_school_number live = user_school_number teacher)
      then inr (inl live)
      else inl (AuthorizationError "You are not authorized to access this live attendance.")
  | None =>
      match get_attendance_by_id d aid with
      | Some a =>
          if bool_decide (db_teacher_school_number a = user_school_number teacher)
          then inr (inr a)
          else inl (AuthorizationError "Attendance not found or you are not authorized to access it.")
      | None => inl (AuthorizationError "Attendance not found or you are not authorized to access it.")
      end
  end.

(** [get_historical_attendances] *)
Definition get_historical_attendances (d : Db) (teacher : User) : list Attendance :=
  get_attendances d (user_school_number teacher).

(** [add_student_to_historical_attendance]: the [ServiceError] raised for
    a missing session is caught by the [except Exception] around it and
    re-raised with the generic message. *)
Definition add_student_to_historical_attendance (d : Db) (aid : string) (student : User)
    (att : bool) (reason : option string) (now : Z) : option ServiceErr * Db :=
  match get_attendance_by_id d aid with
  | None =>
      (Some (ServiceError "An error occurred while adding the student to the historical attendance."), d)
  | Some _ =>
      let d1 := add_users [student] d in
      let new_record := mkAttendanceRecord aid (user_school_number student) att
                          (if att then Some now else None) reason false None None in
      (None, add_attendance_records [new_record] d1)
  end.

(** [accept_student_in_historical_attendance] and
    [fail_student_in_historical_attendance]: the command tag is dropped. *)
Definition accept_student_in_historical_attendance (d : Db) (aid sn : string) (now : Z) : Db :=
  (accept_historical_attendance_record d aid sn now).2.

Definition fail_student_in_historical_attendance (d : Db) (aid sn reason : string) : Db :=
  (fail_historical_attendance_record d aid sn reason).2.

(** [TeacherService.delete_attendance] *)
Definition delete_attendance (d : Db) (aid reason : string) (now : Z) : Db :=
  (db_delete_attendance d aid reason now).2.

(** Python's [str.isspace] on one character (code points 0-255). *)
Definition py_isspace (c : ascii) : bool :=
  let n := nat_of_ascii c in
  ((9 <=? n) && (n <=? 13)) || ((28 <=? n) && (n <=? 32)) || (n =? 133) || (n =? 160).

(** [str.split()] with no separator: the maximal runs of non-whitespace.
    [split_ws s] is the leading run of [s] and the runs after it. *)
Fixpoint split_ws (s : string) : string * list string :=
  match s with
  | EmptyString => (EmptyString, [])
  | String c rest =>
      let '(w, ws) := split_ws rest in
      if py_isspace c then (EmptyString, if bool_decide (w = EmptyString) then ws else w :: ws)
      else (String c w, ws)
  end.

Definition py_str_split (s : string) : list string :=
  let '(w, ws) := split_ws s in
  if bool_decide (w = EmptyString) then ws else w :: ws.

Section DeleteStudent.

(** Python's [int] on a string ([None]: [ValueError]). *)
Variable int_of : string → option Z.

(** [delete_student_from_attendance]: [int(str(result_str).split()[-1])],
    [0] on [ValueError] or [IndexError]. *)
Definition delete_student_from_attendance (d : Db) (aid sn reason : string) (now : Z)
  : Z * Db :=
  let '(result_str, d') := delete_attendance_record d aid sn reason now in
  match last (py_str_split result_str) with
  | None => (0%Z, d')
  | Some tok =>
      match int_of tok with
      | Some n => (n, d')
      | None => (0%Z, d')
      end
  end.

End DeleteStudent.

(* ================================================================= *)
(** ** [get_client_ip] ([api/dependencies.py]) *)

(** The headers are read through [request.headers.get], case-insensitive:
    [headers] maps a lower-case name to its value. *)
Definition client_ip_headers : list string := ["cf-connecting-ip"; "x-real-ip"; "x-forwarded-for"].

(** The first header of the list with a non-empty value. *)
Fixpoint find_header (headers : string → option string) (names : list string) : option string :=
  match names with
  | [] => None
  | n :: ns =>
      match headers n with
      | Some v => if bool_decide (v = EmptyString) then find_header headers ns else Some v
      | None => find_header headers ns
      end
  end.

(** [str.split(",")[0]]: the text before the first comma. *)
Fixpoint before_comma (s : string) : string :=
  match s with
  | EmptyString => EmptyString
  | String c rest => if Ascii.eqb c ","%char then EmptyString else String c (before_comma rest)
  end.

(** [str.strip()] *)
Fixpoint py_lstrip (s : string) : string :=
  match s with
  | EmptyString => EmptyString
  | String c rest => if py_isspace c then py_lstrip rest else s
  end.

Fixpoint py_rstrip (s : string) : string :=
  match s with
  | EmptyString => EmptyString
  | String c rest =>
      let r := py_rstrip rest in
      if py_isspace c && bool_decide (r = EmptyString) then EmptyString else String c r
  end.

Definition py_strip (s : string) : string := py_rstrip (py_lstrip s).

(** [get_client_ip]; [client_host] is [request.client.host] ([None]
    without a client). *)
Definition get_client_ip (headers : string → option string) (client_host : option string)
  : option string :=
  match find_header headers client_ip_headers with
  | Some header => Some (py_strip (before_comma header))
  | None => client_host
  end.

(** The durable store once [demo_session] and [demo_record] are swept, and
    the same store with that record soft-deleted. *)
Definition demo_db : Db := sweep_persist demo_session [demo_record] empty_db.

Definition demo_db_deleted : Db := (delete_attendance_record demo_db "a1" "S-201" "duplicate" 200).2.

(** Python's [int] on the decimal digit strings (no sign, no underscore). *)
Definition demo_int (s : string) : option Z :=
  match parse_decimal s 0 0 with
  | Some (v, S _) => Some v
  | _ => None
  end.

(** Proxy headers: a blank first item in [cf-connecting-ip], and an
    [x-forwarded-for] chain with padding. *)
Definition demo_headers (name : string) : option string :=
  if bool_decide (name = "cf-connecting-ip") then Some " , 10.0.1.7"%string
  else if bool_decide (name = "x-forwarded-for") then Some "10.0.1.7 , 172.16.0.1"%string
  else None.

Definition demo_forwarded (name : string) : option string :=
  if bool_decide (name = "x-forwarded-for") then Some " 10.0.1.7 , 172.16.0.1"%string else None.

(** A tier-2 session opened by a teacher whose request carries the
    headers [demo_headers] (a blank first [cf-connecting-ip] item). *)
Definition demo_blank_ip_redis : Redis :=
  (start_attendance empty_redis demo_teacher "Integration Lesson"
     (get_client_ip demo_headers (Some "10.0.1.7")) 0 100 2 "a5" 0 0).2.

(** Two teachers, one teaching ["Math:Intro"], the other, named
    ["Intro:Dr. X"], teaching ["Math"]: both sessions join to the name key
    ["Math:Intro:Dr. X"]. *)
Definition demo_teacher_x : User := mkUser "T-102" "Dr. X" "Teacher".
Definition demo_teacher_y : User := mkUser "T-103" "Intro:Dr. X" "Teacher".

Definition demo_collision_redis : Redis :=
  let r1 := (start_attendance empty_redis demo_teacher_x "Math:Intro" (Some "10.0.1.5")
               0 100 2 "c1" 0 0).2 in
  (start_attendance r1 demo_teacher_y "Math" (Some "10.0.2.5") 0 100 2 "c2" 0 0).2.

(* ================================================================= *)
(** * Proofs *)

(** Sanity checks on concrete inputs. *)
Example split_colon_ex : split_colon "S-201:abc" = ["S-201"; "abc"].
Proof. reflexivity. Qed.

Example parse_ipv4_ex : parse_ipv4 "10.0.1.5" = Some (IPv4Address 167772421).
Proof. reflexivity. Qed.

Example parse_ipv4_leading_zero : parse_ipv4 "10.0.01.5" = None.
Proof. reflexivity. Qed.

Example verify_wifi_same24 : verify_wifi parse_ipv4 (Some "10.0.1.5") "10.0.1.200" = true.
Proof. vm_compute. reflexivity. Qed.

Example verify_wifi_other24 : verify_wifi parse_ipv4 (Some "10.0.1.5") "10.0.2.5" = false.
Proof. vm_compute. reflexivity. Qed.

(* ----------------------------------------------------------------- *)
(** ** Store lemmas *)

Section StoreLemmas.
Context {K V : Type} `{Countable K}.

Lemma foldl_delete_lookup_notin (ks : list K) (m : gmap K V) (k : K) :
  k ∉ ks → foldl (fun m k => delete k m) m ks !! k = m !! k.
Proof.
  revert m. induction ks as [|k' ks IH]; intros m Hk; simpl; [done|].
  rewrite IH by set_solver. rewrite lookup_delete_ne; [done|]. set_solver.
Qed.

Lemma foldl_delete_lookup_in (ks : list K) (m : gmap K V) (k : K) :
  k ∈ ks → foldl (fun m k => delete k m) m ks !! k = None.
Proof.
  revert m. induction ks as [|k' ks IH]; intros m Hk; simpl; [set_solver|].
  destruct (decide (k ∈ ks)) as [Hin|Hnin]; [by apply IH|].
  rewrite foldl_delete_lookup_notin by done.
  assert (k = k') as -> by set_solver. apply lookup_delete_eq.
Qed.

Lemma foldl_delete_lookup_some (ks : list K) (m : gmap K V) (k : K) (v : V) :
  foldl (fun m k => delete k m) m ks !! k = Some v → m !! k = Some v.
Proof.
  revert m. induction ks as [|k' ks IH]; intros m Hk; simpl in *; [done|].
  apply IH in Hk. apply lookup_delete_Some in Hk. tauto.
Qed.

End StoreLemmas.

Lemma smembers_srem {K} `{Countable K} (m : gmap K (gset string)) (k k' : K) (x y : string) :
  y ∈ smembers (srem k x m) k' ↔ y ∈ smembers m k' ∧ ¬ (k = k' ∧ y = x).
Proof.
  unfold smembers, srem. rewrite lookup_insert.
  destruct (decide (k = k')) as [->|Hne]; simpl.
  - set_solver.
  - split; [intros Hy; split; [done|tauto] | tauto].
Qed.

Lemma smembers_sadd {K} `{Countable K} (m : gmap K (gset string)) (k k' : K) (x y : string) :
  y ∈ smembers (sadd k x m) k' ↔ y ∈ smembers m k' ∨ (k = k' ∧ y = x).
Proof.
  unfold smembers, sadd. rewrite lookup_insert.
  destruct (decide (k = k')) as [->|Hne]; simpl.
  - set_solver.
  - split; [tauto|]. intros [Hy|[? _]]; [done|contradiction].
Qed.

Lemma foldl_upsert_notin (xs : list AttendanceRecord) d k :
  k ∉ map dbr_key xs → foldl upsert_record d xs !! k = d !! k.
Proof.
  revert d. induction xs as [|x xs IH]; intros d Hk; simpl in *; [done|].
  rewrite IH by set_solver. unfold upsert_record. rewrite lookup_insert_ne; [done|]. set_solver.
Qed.

Lemma foldl_upsert_in (xs : list AttendanceRecord) d x :
  x ∈ xs → NoDup (map dbr_key xs) → foldl upsert_record d xs !! dbr_key x = Some (record_row x).
Proof.
  revert d. induction xs as [|y xs IH]; intros d Hx Hnd; simpl in *; [set_solver|].
  apply NoDup_cons in Hnd as [Hy Hnd].
  apply elem_of_cons in Hx as [->|Hin]; [|by apply IH].
  rewrite foldl_upsert_notin by done. unfold upsert_record. apply lookup_insert_eq.
Qed.

Lemma insert_attendance_ne d a id :
  db_attendance_id a ≠ id → insert_attendance d a !! id = d !! id.
Proof.
  intros Hne. unfold insert_attendance.
  destruct (d !! db_attendance_id a); [done|]. by rewrite lookup_insert_ne.
Qed.

Lemma insert_attendance_is_some d a k :
  is_Some (d !! k) ∨ k = db_attendance_id a → is_Some (insert_attendance d a !! k).
Proof.
  unfold insert_attendance. intros Hk.
  destruct (d !! db_attendance_id a) eqn:E.
  - destruct Hk as [Hk| ->]; [done|]. by rewrite E.
  - rewrite lookup_insert. case_decide; [done|]. destruct Hk as [Hk|Hk]; [done|congruence].
Qed.

Lemma insert_attendance_fresh d a :
  d !! db_attendance_id a = None → insert_attendance d a !! db_attendance_id a = Some (attendance_row a).
Proof. intros E. unfold insert_attendance. rewrite E. apply lookup_insert_eq. Qed.

(* ----------------------------------------------------------------- *)
(** ** The sweep, one session at a time *)

Lemma sweep_persist_attendances s recs d :
  d_attendances (sweep_persist s recs d) = insert_attendance (d_attendances d) (attendance_of_redis s).
Proof. destruct recs; reflexivity. Qed.

Lemma sweep_persist_records s recs d :
  d_records (sweep_persist s recs d) = foldl upsert_record (d_records d) (map record_of_redis recs).
Proof. destruct recs; reflexivity. Qed.

Lemma sweep_cleanup_sessions s recs r :
  r_sessions (sweep_cleanup s recs r) = delete (attendance_id s) (r_sessions r).
Proof. destruct recs; reflexivity. Qed.

Lemma sweep_cleanup_name_index s recs r :
  r_name_index (sweep_cleanup s recs r) = srem (name_index_key s) (attendance_id s) (r_name_index r).
Proof. destruct recs; reflexivity. Qed.

Lemma sweep_cleanup_teacher_index s recs r :
  r_teacher_index (sweep_cleanup s recs r)
  = srem (teacher_school_number s) (attendance_id s) (r_teacher_index r).
Proof. destruct recs; reflexivity. Qed.

Lemma sweep_cleanup_records s recs r :
  r_records (sweep_cleanup s recs r)
  = foldl (fun m k => delete k m) (r_records r) (map (fun rec => (attendance_id s, student_number rec)) recs).
Proof. destruct recs; reflexivity. Qed.

Lemma get_attendance_records_elem r aid rec :
  rec ∈ get_attendance_records r aid ↔ ∃ sn, r_records r !! (aid, sn) = Some rec.
Proof.
  unfold get_attendance_records. rewrite list_elem_of_fmap. split.
  - intros [[[a sn] rec'] [-> Hin]]. apply elem_of_map_to_list in Hin.
    apply map_lookup_filter_Some in Hin as [Hl Hp]. simpl in *. subst. eauto.
  - intros [sn Hl]. exists ((aid, sn), rec). split; [done|].
    apply elem_of_map_to_list, map_lookup_filter_Some. done.
Qed.

Lemma map_key_snd {A B} (f : B → A) (l : list (A * B)) :
  Forall (fun kv => kv.1 = f kv.2) l → map f l.*2 = l.*1.
Proof. induction 1 as [|[a b] l Hab _ IH]; simpl in *; [done|]. rewrite Hab. f_equal. exact IH. Qed.

Lemma get_attendance_records_nodup r aid :
  redis_wf r → NoDup (map dbr_key (map record_of_redis (get_attendance_records r aid))).
Proof.
  intros [_ Hrec]. rewrite map_map. unfold get_attendance_records.
  rewrite (map_key_snd (fun rec => dbr_key (record_of_redis rec))); [apply NoDup_fst_map_to_list|].
  apply Forall_forall. intros [k rec] Hin. apply elem_of_map_to_list in Hin.
  apply map_lookup_filter_Some in Hin as [Hl _]. simpl. apply Hrec in Hl. done.
Qed.

Lemma get_attendance_records_aid r aid rec :
  redis_wf r → rec ∈ get_attendance_records r aid → rec_attendance_id rec = aid.
Proof.
  intros [_ Hrec] Hin. apply get_attendance_records_elem in Hin as [sn Hl].
  apply Hrec in Hl. unfold record_key in Hl. congruence.
Qed.

Lemma agree_on_refl id w : agree_on id w w.
Proof. repeat split; auto. Qed.

Lemma agree_on_trans id w1 w2 w3 : agree_on id w1 w2 → agree_on id w2 w3 → agree_on id w1 w3.
Proof.
  intros (A1 & B1 & C1 & D1 & E1 & F1) (A2 & B2 & C2 & D2 & E2 & F2).
  split; [congruence|]. split; [intros sn; by rewrite B1|].
  split; [intros nk; by rewrite C1|]. split; [intros tk; by rewrite D1|].
  split; [congruence|]. intros sn; by rewrite F1.
Qed.

Lemma process_session_key_wf now w k :
  redis_wf (w_redis w) → redis_wf (w_redis (process_session_key now w k)).
Proof.
  intros Hwf. unfold process_session_key.
  destruct (get_attendance_session (w_redis w) k) as [s|]; [|done].
  case_bool_decide; [done|]. destruct Hwf as [Hs Hr]. split; simpl.
  - intros k' s'. rewrite sweep_cleanup_sessions. intros Hl.
    apply lookup_delete_Some in Hl as [_ Hl]. eauto.
  - intros k' rec. rewrite sweep_cleanup_records. intros Hl.
    apply foldl_delete_lookup_some in Hl. eauto.
Qed.

(** Processing another session key leaves everything about [id] alone. *)
Lemma process_session_key_frame now w k id :
  redis_wf (w_redis w) → k ≠ id → agree_on id w (process_session_key now w k).
Proof.
  intros Hwf Hne. unfold process_session_key.
  destruct (get_attendance_session (w_redis w) k) as [s|] eqn:Hs; [|apply agree_on_refl].
  case_bool_decide; [apply agree_on_refl|].
  assert (attendance_id s = k) as Hk by (apply (proj1 Hwf); exact Hs).
  set (recs := get_attendance_records (w_redis w) (attendance_id s)).
  assert (Hrecs : ∀ rec, rec ∈ recs → rec_attendance_id rec = k).
  { intros rec Hin. rewrite <- Hk. by eapply get_attendance_records_aid. }
  repeat split; simpl.
  - rewrite sweep_cleanup_sessions, lookup_delete_ne; congruence.
  - intros sn. rewrite sweep_cleanup_records, foldl_delete_lookup_notin; [done|].
    intros Hin. apply list_elem_of_In, in_map_iff in Hin as (rec & Heq & _). congruence.
  - rewrite sweep_cleanup_name_index, smembers_srem. intros Hm. split; [done|].
    intros [_ ?]. congruence.
  - rewrite sweep_cleanup_name_index, smembers_srem. tauto.
  - rewrite sweep_cleanup_teacher_index, smembers_srem. intros Hm. split; [done|].
    intros [_ ?]. congruence.
  - rewrite sweep_cleanup_teacher_index, smembers_srem. tauto.
  - rewrite sweep_persist_attendances, insert_attendance_ne; [done|]. simpl. congruence.
  - intros sn. rewrite sweep_persist_records, foldl_upsert_notin; [done|].
    intros Hin. apply list_elem_of_In, in_map_iff in Hin as (x & Heq & Hx).
    apply in_map_iff in Hx as (rec & <- & Hrec).
    apply list_elem_of_In, Hrecs in Hrec. unfold dbr_key in Heq. simpl in Heq. congruence.
Qed.

Lemma sweep_fold_frame now ks w id :
  redis_wf (w_redis w) → id ∉ ks →
  agree_on id w (foldl (process_session_key now) w ks) ∧
  redis_wf (w_redis (foldl (process_session_key now) w ks)).
Proof.
  revert w. induction ks as [|k ks IH]; intros w Hwf Hid; simpl; [split; [apply agree_on_refl|done]|].
  destruct (IH (process_session_key now w k)) as [Ha Hw].
  - by apply process_session_key_wf.
  - set_solver.
  - split; [|done]. eapply agree_on_trans; [|exact Ha].
    apply process_session_key_frame; [done|set_solver].
Qed.

(** Processing the key of an expired session migrates it. *)
Lemma process_session_key_expired now w id s :
  redis_wf (w_redis w) → r_sessions (w_redis w) !! id = Some s → (end_time s < now)%Z →
  swept_into_db id s w (process_session_key now w id).
Proof.
  intros Hwf Hs Hexp.
  assert (attendance_id s = id) as Hid by (apply (proj1 Hwf); exact Hs).
  unfold process_session_key, get_attendance_session. rewrite Hs.
  rewrite bool_decide_false by lia.
  set (recs := get_attendance_records (w_redis w) (attendance_id s)).
  unfold swept_into_db; simpl.
  split; [rewrite sweep_cleanup_sessions, Hid; apply lookup_delete_eq|].
  split; [rewrite sweep_cleanup_name_index, smembers_srem, Hid; tauto|].
  split; [rewrite sweep_cleanup_teacher_index, smembers_srem, Hid; tauto|].
  split.
  { intros sn. rewrite sweep_cleanup_records.
    destruct (r_records (w_redis w) !! (id, sn)) as [rec|] eqn:Hr.
    - apply foldl_delete_lookup_in. apply list_elem_of_In, in_map_iff.
      exists rec. split.
      + apply (proj2 Hwf) in Hr. unfold record_key in Hr. congruence.
      + apply list_elem_of_In, get_attendance_records_elem. rewrite Hid. eauto.
    - destruct (foldl _ _ _ !! (id, sn)) as [v|] eqn:Hv; [|done].
      apply foldl_delete_lookup_some in Hv. congruence. }
  split; [rewrite sweep_persist_attendances; apply insert_attendance_is_some; right; simpl; congruence|].
  split.
  { intros Hnone. rewrite sweep_persist_attendances.
    rewrite <- Hid at 1. apply insert_attendance_fresh. simpl. congruence. }
  intros sn rec Hr. rewrite sweep_persist_records.
  assert (dbr_key (record_of_redis rec) = (id, sn)) as Hk.
  { apply (proj2 Hwf) in Hr. unfold record_key in Hr. unfold dbr_key. simpl. congruence. }
  rewrite <- Hk. apply (foldl_upsert_in _ _ (record_of_redis rec)).
  - apply list_elem_of_In, in_map, list_elem_of_In, get_attendance_records_elem.
    rewrite Hid. eauto.
  - by apply get_attendance_records_nodup.
Qed.

Lemma swept_into_db_agree_r id s w w1 w2 :
  swept_into_db id s w w1 → agree_on id w1 w2 → swept_into_db id s w w2.
Proof.
  intros (A & B & C & D & E & F & G) (A' & B' & C' & D' & E' & F').
  split; [congruence|]. split; [by rewrite <- C'|]. split; [by rewrite <- D'|].
  split; [intros sn; by rewrite <- B'|]. split; [by rewrite <- E'|].
  split; [intros Hn; rewrite <- E'; auto|].
  intros sn rec Hr. rewrite <- F'. auto.
Qed.

Lemma swept_into_db_agree_l id s w0 w w1 :
  agree_on id w0 w → swept_into_db id s w w1 → swept_into_db id s w0 w1.
Proof.
  intros (A' & B' & C' & D' & E' & F') (A & B & C & D & E & F & G).
  do 5 (split; [done|]). split; [intros Hn; apply F; congruence|].
  intros sn rec Hr. apply G. by rewrite <- B'.
Qed.

Lemma sweep_fold_split now w id (l1 l2 : list string) :
  redis_wf (w_redis w) → id ∉ l1 → id ∉ l2 →
  ∃ w0, agree_on id w w0 ∧ redis_wf (w_redis w0) ∧
    foldl (process_session_key now) w (l1 ++ id :: l2)
    = foldl (process_session_key now) (process_session_key now w0 id) l2.
Proof.
  intros Hwf H1 H2. destruct (sweep_fold_frame now l1 w id Hwf H1) as [Ha Hw].
  exists (foldl (process_session_key now) w l1). split; [done|]. split; [done|].
  by rewrite foldl_app.
Qed.

(** ** Claim C2 *)

(** C2. One pass of the persistence sweep ([unified_persistence_task] at
    clock [now]) over a store whose blobs sit under their own keys:
    every live session whose [end_time] is past is migrated (durable row,
    every live record as a durable record) and its blob, both index
    entries and every live record key are gone; a session whose
    [end_time] is not past is left untouched (everything about its id
    agrees before and after); and for an id with no live blob (already
    migrated), its loop body is the identity and the pass changes nothing
    about it. *)
Theorem unified_persistence_task_spec (now : Z) (w : World) :
  redis_wf (w_redis w) →
  (∀ id s, r_sessions (w_redis w) !! id = Some s → (end_time s < now)%Z →
     swept_into_db id s w (unified_persistence_task now w)) ∧
  (∀ id s, r_sessions (w_redis w) !! id = Some s → (now <= end_time s)%Z →
     agree_on id w (unified_persistence_task now w)) ∧
  (∀ id, r_sessions (w_redis w) !! id = None →
     process_session_key now w id = w ∧ agree_on id w (unified_persistence_task now w)).
Proof.
  intros Hwf. unfold unified_persistence_task.
  set (ks := elements (dom (r_sessions (w_redis w)))).
  assert (Hnd : NoDup ks) by apply NoDup_elements.
  assert (Hin : ∀ id, id ∈ ks ↔ is_Some (r_sessions (w_redis w) !! id)).
  { intros id. unfold ks. by rewrite elem_of_elements, elem_of_dom. }
  split; [|split].
  - intros id s Hs Hexp.
    assert (id ∈ ks) as Hk by (apply Hin; eauto).
    apply list_elem_of_split in Hk as (l1 & l2 & Hks).
    rewrite Hks in Hnd. apply NoDup_app in Hnd as (_ & Hdisj & Hnd2).
    apply NoDup_cons in Hnd2 as [Hn2 _].
    assert (Hn1 : id ∉ l1) by (intros Hi; apply (Hdisj id Hi); set_solver).
    rewrite Hks. destruct (sweep_fold_split now w id l1 l2 Hwf Hn1 Hn2) as (w0 & Ha & Hw0 & ->).
    apply (swept_into_db_agree_l _ _ _ w0); [done|].
    eapply swept_into_db_agree_r; [|apply sweep_fold_frame; [by apply process_session_key_wf|done]].
    apply process_session_key_expired; [done| |done].
    destruct Ha as [Ha _]. congruence.
  - intros id s Hs Hlive.
    assert (id ∈ ks) as Hk by (apply Hin; eauto).
    apply list_elem_of_split in Hk as (l1 & l2 & Hks).
    rewrite Hks in Hnd. apply NoDup_app in Hnd as (_ & Hdisj & Hnd2).
    apply NoDup_cons in Hnd2 as [Hn2 _].
    assert (Hn1 : id ∉ l1) by (intros Hi; apply (Hdisj id Hi); set_solver).
    rewrite Hks. destruct (sweep_fold_split now w id l1 l2 Hwf Hn1 Hn2) as (w0 & Ha & Hw0 & ->).
    assert (process_session_key now w0 id = w0) as ->.
    { unfold process_session_key, get_attendance_session.
      destruct Ha as [Ha _]. rewrite <- Ha, Hs. rewrite bool_decide_true by lia. done. }
    eapply agree_on_trans; [exact Ha|]. by apply sweep_fold_frame.
  - intros id Hnone. split.
    + unfold process_session_key, get_attendance_session. by rewrite Hnone.
    + apply sweep_fold_frame; [done|]. rewrite Hin. rewrite Hnone. by intros [? ?].
Qed.

Lemma demo_world_wf : redis_wf (w_redis demo_world).
Proof.
  split; simpl.
  - intros k s Hl. apply lookup_insert_Some in Hl as [[<- <-]|[_ Hl]]; [done|].
    by rewrite lookup_empty in Hl.
  - intros k rec Hl. apply lookup_insert_Some in Hl as [[<- <-]|[_ Hl]]; [done|].
    by rewrite lookup_empty in Hl.
Qed.

Example demo_sweep_deletes :
  r_sessions (w_redis (unified_persistence_task 200 demo_world)) = ∅ ∧
  r_records (w_redis (unified_persistence_task 200 demo_world)) = ∅.
Proof. split; vm_compute; reflexivity. Qed.

(** Witness of C2 on [demo_world] at time 200. *)
Lemma unified_persistence_task_spec_witness :
  redis_wf (w_redis demo_world) ∧
  (∀ id s, r_sessions (w_redis demo_world) !! id = Some s → (end_time s < 200)%Z →
     swept_into_db id s demo_world (unified_persistence_task 200 demo_world)).
Proof.
  split; [exact demo_world_wf|].
  exact (proj1 (unified_persistence_task_spec 200 demo_world demo_world_wf)).
Defined.

(* ----------------------------------------------------------------- *)
(** ** Sessions across both stores *)

Lemma start_attendance_inr r teacher lesson ip st et sec new_id now pop a r' :
  start_attendance r teacher lesson ip st et sec new_id now pop = (inr a, r') →
  attendance_id a = new_id ∧ r' = save_attendance_session a r.
Proof.
  unfold start_attendance.
  destruct (get_attendance_session_of_teacher _ _ _ _); [discriminate|].
  intros [= <- <-]. done.
Qed.

Lemma finish_attendance_ok r teacher aid now r' :
  finish_attendance r teacher aid now = (None, r') →
  ∃ s, r_sessions r !! aid = Some s ∧ r' = save_attendance_session (set_end_time s now) r.
Proof.
  unfold finish_attendance, get_attendance_session.
  destruct (r_sessions r !! aid) as [s|] eqn:E; [|discriminate].
  case_bool_decide; [|discriminate]. intros [= <-]. eauto.
Qed.

Lemma save_attendance_session_dom a r :
  dom (r_sessions (save_attendance_session a r)) = {[attendance_id a]} ∪ dom (r_sessions r).
Proof. simpl. apply dom_insert_L. Qed.

Lemma sys_inv_init : sys_inv init_sys.
Proof. split; [intros id; simpl; set_solver|done]. Qed.

Lemma sweep_persist_durable_mono a recs d k :
  k ∈ dom (d_attendances d) ∨ k = attendance_id a →
  k ∈ dom (d_attendances (sweep_persist a recs d)).
Proof.
  intros Hk. rewrite sweep_persist_attendances, elem_of_dom.
  apply insert_attendance_is_some.
  destruct Hk as [Hk|Hk]; [left; by apply elem_of_dom|right; done].
Qed.

Lemma sys_inv_step s s' : step s s' → sys_inv s → sys_inv s'.
Proof.
  intros Hstep [Hsome Hfl]. destruct Hstep as
    [s teacher lesson ip st et sec new_id now pop a r' Hfresh Hstart
    |s teacher aid now r' Hfin
    |s rec
    |s now key a Hnone Hget Hexp recs
    |s a recs Hin
    |s x Hin].
  - apply start_attendance_inr in Hstart as [Hid ->].
    split; [|exact Hfl].
    intros id Hid'. unfold live_ids, durable_ids in *. cbn [sys_world sys_created sys_inflight w_redis w_db] in *.
    rewrite save_attendance_session_dom, Hid.
    apply elem_of_union in Hid' as [Hid'|Hid']; [left; set_solver|].
    destruct (Hsome id Hid'); [left; set_solver|by right].
  - apply finish_attendance_ok in Hfin as (s0 & _ & ->).
    split; [|exact Hfl].
    intros id Hid'. unfold live_ids, durable_ids, with_redis in *. cbn [sys_world sys_created sys_inflight w_redis w_db] in *.
    rewrite save_attendance_session_dom.
    destruct (Hsome id Hid'); [left; set_solver|by right].
  - split; [|exact Hfl]. exact Hsome.
  - split.
    + intros id Hid'. unfold live_ids, durable_ids in *. cbn [sys_world sys_created sys_inflight w_redis w_db] in *.
      destruct (Hsome id Hid') as [Hl|Hd]; [by left|].
      right. apply sweep_persist_durable_mono. by left.
    + intros a' recs' [= <- _]. unfold durable_ids. simpl.
      apply sweep_persist_durable_mono. by right.
  - split; [|done].
    intros id Hid'. unfold live_ids, durable_ids in *. cbn [sys_world sys_created sys_inflight w_redis w_db] in *.
    rewrite sweep_cleanup_sessions, dom_delete_L.
    destruct (decide (id = attendance_id a)) as [->|Hne].
    + right. by apply (Hfl a recs).
    + destruct (Hsome id Hid'); [left; set_solver|by right].
  - split; [exact Hsome|done].
Qed.

Lemma sys_inv_reachable s : reachable s → sys_inv s.
Proof.
  unfold reachable. intros Hr. remember init_sys as s0 eqn:E.
  induction Hr as [x|x y z Hxy Hyz IH].
  - subst. apply sys_inv_init.
  - (* rtc is left-recursive: the invariant is carried from the front *)
    subst. clear IH. revert Hyz. generalize (sys_inv_step _ _ Hxy sys_inv_init).
    clear Hxy. intros Hy Hyz. induction Hyz as [y|y y' z Hyy' _ IH2]; [done|].
    apply IH2. by eapply sys_inv_step.
Qed.

Lemma step_eq s s1 s2 : step s s1 → s1 = s2 → step s s2.
Proof. by intros ? <-. Qed.

Lemma sys_mid_sweep_reachable : reachable sys_mid_sweep.
Proof.
  unfold reachable. apply (rtc_l _ _ sys_after_start).
  { eapply step_eq.
    - apply (StepStart init_sys demo_teacher "Integration Lesson" (Some "10.0.1.5") 0 100 2 "a1" 0 0
               demo_session (save_attendance_session demo_session empty_redis)).
      + simpl. set_solver.
      + vm_compute. reflexivity.
    - unfold sys_after_start. simpl. f_equal; set_solver. }
  eapply rtc_l; [|apply rtc_refl].
  apply (StepSweepPersist sys_after_start 200 "a1" demo_session); [done|vm_compute; reflexivity|simpl; lia].
Qed.

(** ** Claim C1 *)

(** C1 (as stated: exactly one store, never both and never neither) fails:
    right after the sweep's durable writes for a session and before its
    Redis cleanup, a reachable state holds the id in both stores. *)
Lemma exactly_one_store_fails :
  ¬ (∀ s, reachable s → exactly_one_store s).
Proof.
  intros Hall. specialize (Hall sys_mid_sweep sys_mid_sweep_reachable "a1").
  assert (Hc : "a1" ∈ sys_created sys_mid_sweep) by (simpl; set_solver).
  specialize (Hall Hc).
  assert (Hl : "a1" ∈ live_ids sys_mid_sweep).
  { unfold live_ids. apply elem_of_dom. vm_compute. eauto. }
  assert (Hd : "a1" ∈ durable_ids sys_mid_sweep).
  { unfold durable_ids. apply elem_of_dom. vm_compute. eauto. }
  apply Hall in Hl. contradiction.
Qed.

(** C1 (amended). In every reachable state, every session id ever created
    is in the live store or in the durable store (never neither); the sweep
    writes the durable row before it deletes the live blob, so both copies
    exist between those two steps and after a failed cleanup. *)
Theorem created_session_never_in_neither_store (s : Sys) (id : string) :
  reachable s → id ∈ sys_created s → id ∈ live_ids s ∨ id ∈ durable_ids s.
Proof. intros Hr Hid. apply (proj1 (sys_inv_reachable s Hr)). exact Hid. Qed.

Lemma created_session_never_in_neither_store_witness :
  reachable sys_mid_sweep ∧ "a1" ∈ sys_created sys_mid_sweep ∧
  ("a1" ∈ live_ids sys_mid_sweep ∨ "a1" ∈ durable_ids sys_mid_sweep).
Proof.
  split; [exact sys_mid_sweep_reachable|]. split; [simpl; set_solver|].
  apply (created_session_never_in_neither_store sys_mid_sweep "a1");
    [exact sys_mid_sweep_reachable|simpl; set_solver].
Defined.

(* ----------------------------------------------------------------- *)
(** ** Networks: [netmask] and prefixes *)

Section Bits.
Local Open Scope Z_scope.

Lemma testbit_high x bits i : 0 <= bits <= i → 0 <= x < 2 ^ bits → Z.testbit x i = false.
Proof.
  intros Hi Hx. rewrite <- (Z.mod_small x (2 ^ bits)) by lia.
  apply Z.mod_pow2_bits_high. lia.
Qed.

Lemma testbit_netmask bits p i : 0 <= p <= bits → 0 <= i →
  Z.testbit (netmask bits p) i = (bits - p <=? i) && (i <? bits).
Proof.
  intros Hp Hi. unfold netmask. rewrite Z.lxor_spec, !Z.testbit_ones_nonneg by lia.
  destruct (Z.ltb_spec i bits), (Z.ltb_spec i (bits - p)), (Z.leb_spec (bits - p) i);
    simpl; lia || reflexivity.
Qed.

(** Membership in the [/p] network of [x] is equality of the leading [p]
    bits. *)
Lemma in_network_iff_prefix bits p x y :
  0 <= p <= bits → 0 <= x < 2 ^ bits → 0 <= y < 2 ^ bits →
  in_network bits p x y = Z.eqb (Z.shiftr x (bits - p)) (Z.shiftr y (bits - p)).
Proof.
  intros Hp Hx Hy. unfold in_network. apply eq_bool_prop_intro. rewrite !Is_true_true, !Z.eqb_eq.
  split.
  - intros Heq. apply Z.bits_inj'. intros n Hn.
    rewrite !Z.shiftr_spec by lia.
    destruct (Z.ltb_spec (n + (bits - p)) bits).
    + assert (E := f_equal (fun z => Z.testbit z (n + (bits - p))) Heq). simpl in E.
      rewrite !Z.land_spec, testbit_netmask in E by lia.
      rewrite (proj2 (Z.leb_le _ _)), (proj2 (Z.ltb_lt _ _)) in E by lia.
      rewrite !andb_true_r in E. congruence.
    + rewrite !(testbit_high _ bits) by lia. reflexivity.
  - intros Heq. apply Z.bits_inj'. intros n Hn.
    rewrite !Z.land_spec, testbit_netmask by lia.
    destruct (Z.leb_spec (bits - p) n), (Z.ltb_spec n bits); rewrite ?andb_false_r; try reflexivity.
    rewrite !andb_true_r.
    assert (E := f_equal (fun z => Z.testbit z (n - (bits - p))) Heq). simpl in E.
    rewrite !Z.shiftr_spec, Z.sub_add in E by lia. congruence.
Qed.

End Bits.

Lemma verify_wifi_rule ip_of sip ip :
  ip_in_range ip_of → sip ≠ EmptyString → ip ≠ EmptyString →
  verify_wifi ip_of (Some sip) ip = same_network_spec ip_of sip ip.
Proof.
  intros [H4 H6] Hs Hi. unfold verify_wifi, same_network_spec.
  rewrite (bool_decide_false (sip = EmptyString)), (bool_decide_false (ip = EmptyString)) by done.
  cbn [orb]. destruct (bool_decide (sip = ip)) eqn:Heq; [reflexivity|]. cbn [orb].
  destruct (ip_of sip) as [[x|x]|] eqn:Ex; [| |reflexivity];
  (destruct (ip_of ip) as [[y|y]|] eqn:Ey; [| |reflexivity]).
  - apply (in_network_iff_prefix 32 24); [lia|eauto|eauto].
  - reflexivity.
  - reflexivity.
  - apply (in_network_iff_prefix 128 64); [lia|eauto|eauto].
Qed.

Lemma parse_decimal_nonneg s acc n v m :
  parse_decimal s acc n = Some (v, m) → (0 <= acc)%Z → (0 <= v)%Z.
Proof.
  revert acc n. induction s as [|c s IH]; intros acc n Hp Hacc; simpl in Hp.
  - congruence.
  - destruct (digit_val c) as [d|] eqn:Hd; [|discriminate].
    apply IH in Hp; [done|]. unfold digit_val in Hd.
    case_bool_decide; [|discriminate]. injection Hd as <-. lia.
Qed.

Lemma parse_octet_range s v : parse_octet s = Some v → (0 <= v <= 255)%Z.
Proof.
  unfold parse_octet. destruct (parse_decimal s 0 0) as [[v' n]|] eqn:Hp; [|discriminate].
  destruct (bool_decide (1 <= n <= 3)%nat && bool_decide (v' <= 255)%Z && _) eqn:Hb; [|discriminate].
  intros [= <-]. apply andb_true_iff in Hb as [Hb _]. apply andb_true_iff in Hb as [_ Hb].
  apply bool_decide_eq_true in Hb. apply parse_decimal_nonneg in Hp; lia.
Qed.

Lemma parse_ipv4_in_range : ip_in_range parse_ipv4.
Proof.
  split; intros s v; unfold parse_ipv4;
    destruct (split_dot s) as [|a [|b [|c [|d [|? ?]]]]]; try discriminate;
    destruct (parse_octet a) eqn:Ha, (parse_octet b) eqn:Hb, (parse_octet c) eqn:Hc,
      (parse_octet d) eqn:Hd; try discriminate.
  intros [= <-].
  apply parse_octet_range in Ha, Hb, Hc, Hd. simpl. lia.
Qed.

(* ----------------------------------------------------------------- *)
(** ** The attendance attempt *)

Lemma attend_wifi_failed ip_of r student aid sip photo now io act :
  get_attendance_session r aid = Some act → (now < end_time act)%Z →
  may_attempt r aid (user_school_number student) →
  (2 <= security_option act)%Z →
  truthy sip && verify_wifi ip_of (ip_address act) (default EmptyString sip) = false →
  ∃ rec, attend_to_attendance ip_of r student aid sip photo now io
         = (inr rec, add_attendance_record rec r, []) ∧
         is_attended rec = false ∧ fail_reason rec = Some "WIFI_FAILED".
Proof.
  intros Hact Hlive Hmay Hsec Hw.
  unfold attend_to_attendance; rewrite Hact.
  rewrite (bool_decide_false (_ <= _)%Z) by lia.
  unfold may_attempt in Hmay.
  destruct (get_attendance_record_by_id _ _ _) as [ex|];
  [destruct Hmay as [Hmay1 Hmay2]; rewrite Hmay1, (bool_decide_false (fail_reason ex = _)) by done|];
  cbn zeta.
  all: rewrite <- negb_andb, Hw, (bool_decide_true (2 <= _)%Z) by lia.
  all: cbn [andb negb].
  all: rewrite (bool_decide_false (Some _ = None)) by done; rewrite andb_false_r.
  all: cbn iota.
  all: rewrite (bool_decide_false (Some _ = None)) by done.
  all: eexists; split; [reflexivity|split; reflexivity].
Qed.

Lemma attend_wifi_passed_tier2 ip_of r student aid sip photo now io act :
  get_attendance_session r aid = Some act → (now < end_time act)%Z →
  may_attempt r aid (user_school_number student) →
  security_option act = 2%Z →
  truthy sip && verify_wifi ip_of (ip_address act) (default EmptyString sip) = true →
  ∃ rec, attend_to_attendance ip_of r student aid sip photo now io
         = (inr rec, add_attendance_record rec r, []) ∧
         is_attended rec = true ∧ attendance_time rec = Some now ∧ fail_reason rec = None.
Proof.
  intros Hact Hlive Hmay Hsec Hw.
  unfold attend_to_attendance; rewrite Hact.
  rewrite (bool_decide_false (_ <= _)%Z) by lia.
  unfold may_attempt in Hmay.
  destruct (get_attendance_record_by_id _ _ _) as [ex|];
  [destruct Hmay as [Hmay1 Hmay2]; rewrite Hmay1, (bool_decide_false (fail_reason ex = _)) by done|];
  cbn zeta.
  all: rewrite <- negb_andb, Hw, (bool_decide_false (security_option act = 3)%Z) by lia.
  all: cbn [andb negb].
  all: rewrite andb_false_r; cbn iota.
  all: rewrite (bool_decide_true (None = None)) by done.
  all: eexists; split; [reflexivity|repeat split].
Qed.

(** C5 (amended): on a live tier-2 or tier-3 session, for a non-empty
    recorded address and a non-empty caller address, the network check is
    the same-network rule (exact match, same IPv4 /24, same IPv6 /64,
    anything else fails closed); a failed check writes [attended=false],
    ["WIFI_FAILED"], and a passing check on a tier-2 session writes
    [attended=true]. When the recorded address is missing or empty, or the
    caller's address is empty, the check fails, even for two empty
    addresses that match exactly. *)
Theorem wifi_check_spec ip_of r student aid ip photo now io act :
  ip_in_range ip_of →
  get_attendance_session r aid = Some act → (now < end_time act)%Z →
  may_attempt r aid (user_school_number student) →
  (∀ sip, ip_address act = Some sip → sip ≠ EmptyString → ip ≠ EmptyString →
   verify_wifi ip_of (Some sip) ip = same_network_spec ip_of sip ip ∧
   ((2 <= security_option act)%Z → same_network_spec ip_of sip ip = false →
    ∃ rec, attend_to_attendance ip_of r student aid (Some ip) photo now io
           = (inr rec, add_attendance_record rec r, []) ∧
           is_attended rec = false ∧ fail_reason rec = Some "WIFI_FAILED") ∧
   (security_option act = 2%Z → same_network_spec ip_of sip ip = true →
    ∃ rec, attend_to_attendance ip_of r student aid (Some ip) photo now io
           = (inr rec, add_attendance_record rec r, []) ∧
           is_attended rec = true ∧ attendance_time rec = Some now ∧ fail_reason rec = None)) ∧
  ((2 <= security_option act)%Z →
   ip_address act = None ∨ ip_address act = Some EmptyString ∨ ip = EmptyString →
   ∃ rec, attend_to_attendance ip_of r student aid (Some ip) photo now io
          = (inr rec, add_attendance_record rec r, []) ∧
          is_attended rec = false ∧ fail_reason rec = Some "WIFI_FAILED").
Proof.
  intros Hrange Hact Hlive Hmay. split.
  - intros sip Hip Hs Hi.
    pose proof (verify_wifi_rule ip_of sip ip Hrange Hs Hi) as Hrule.
    assert (Htr : truthy (Some ip) = true).
    { unfold truthy. rewrite (bool_decide_false (ip = EmptyString)) by done. reflexivity. }
    split; [exact Hrule|split].
    + intros Hsec Hsame. apply (attend_wifi_failed ip_of r student aid (Some ip) photo now io act);
        try assumption.
      rewrite Htr, Hip. change (default EmptyString (Some ip)) with ip. cbn [andb]. rewrite Hrule.
      exact Hsame.
    + intros Hsec Hsame.
      apply (attend_wifi_passed_tier2 ip_of r student aid (Some ip) photo now io act);
        try assumption.
      rewrite Htr, Hip. change (default EmptyString (Some ip)) with ip. cbn [andb]. rewrite Hrule.
      exact Hsame.
  - intros Hsec Hempty. apply (attend_wifi_failed ip_of r student aid (Some ip) photo now io act);
      try assumption.
    change (default EmptyString (Some ip)) with ip.
    destruct Hempty as [Hn | [He | ->]].
    + rewrite Hn. apply andb_false_r.
    + rewrite He. unfold verify_wifi. rewrite (bool_decide_true (EmptyString = EmptyString)) by done.
      apply andb_false_r.
    + reflexivity.
Qed.

Lemma wifi_check_spec_witness :
  ip_in_range parse_ipv4 ∧
  verify_wifi parse_ipv4 (Some "10.0.1.5") "10.0.2.5" =
    same_network_spec parse_ipv4 "10.0.1.5" "10.0.2.5" ∧
  ∃ rec, attend_to_attendance parse_ipv4 demo_live_redis demo_student "a1" (Some "") None 50
           demo_io = (inr rec, add_attendance_record rec demo_live_redis, []) ∧
         fail_reason rec = Some "WIFI_FAILED".
Proof.
  destruct (wifi_check_spec parse_ipv4 demo_live_redis demo_student "a1" "10.0.2.5"
              None 50 demo_io demo_session parse_ipv4_in_range eq_refl ltac:(simpl; lia) I)
    as [Hnet _].
  destruct (wifi_check_spec parse_ipv4 demo_live_redis demo_student "a1" ""
              None 50 demo_io demo_session parse_ipv4_in_range eq_refl ltac:(simpl; lia) I)
    as [_ Hempty].
  split; [exact parse_ipv4_in_range|]. split.
  - exact (proj1 (Hnet "10.0.1.5" eq_refl ltac:(discriminate) ltac:(discriminate))).
  - destruct (Hempty ltac:(simpl; lia) (or_intror (or_intror eq_refl))) as (rec & Hatt & _ & Hf).
    exists rec. split; [exact Hatt|exact Hf].
Defined.

(** C5 refuted: a teacher and a student whose requests carry a blank
    first [cf-connecting-ip] item both get the empty address; the two
    addresses match exactly, yet the tier-2 attempt is recorded
    ["WIFI_FAILED"]. *)
Lemma wifi_exact_match_fails :
  get_client_ip demo_headers (Some "10.0.1.7") = Some EmptyString ∧
  same_network_spec parse_ipv4 EmptyString EmptyString = true ∧
  ∃ rec,
    attend_to_attendance parse_ipv4 demo_blank_ip_redis demo_student "a5"
      (get_client_ip demo_headers (Some "10.0.1.7")) None 50 demo_io
    = (inr rec, add_attendance_record rec demo_blank_ip_redis, []) ∧
    is_attended rec = false ∧ fail_reason rec = Some "WIFI_FAILED".
Proof.
  split; [vm_compute; reflexivity|]. split; [reflexivity|].
  exists (mkRecordRedis "a5" "S-201" "Student Alpha" false None (Some "WIFI_FAILED") false None None).
  split; [vm_compute; reflexivity|]. split; reflexivity.
Qed.

(** C6: on a tier-3 session whose network check passed, an attempt without
    a photo is answered at once with a record [attended=false] and reason
    ["FACE_VERIFICATION_REQUIRED_BUT_IMAGE_MISSING"]; no event reaches the
    verifier (no download, no job) and the correlation map is untouched. *)
Theorem attend_no_photo_spec ip_of r student aid sip photo now io act :
  get_attendance_session r aid = Some act → (now < end_time act)%Z →
  may_attempt r aid (user_school_number student) →
  security_option act = 3%Z →
  truthy sip && verify_wifi ip_of (ip_address act) (default EmptyString sip) = true →
  truthy photo = false →
  ∃ rec, attend_to_attendance ip_of r student aid sip photo now io
         = (inr rec, add_attendance_record rec r, []) ∧
         is_attended rec = false ∧
         fail_reason rec = Some "FACE_VERIFICATION_REQUIRED_BUT_IMAGE_MISSING" ∧
         r_verifications (add_attendance_record rec r) = r_verifications r.
Proof.
  intros Hact Hlive Hmay Hsec Hw Hphoto.
  unfold attend_to_attendance; rewrite Hact.
  rewrite (bool_decide_false (_ <= _)%Z) by lia.
  unfold may_attempt in Hmay.
  destruct (get_attendance_record_by_id _ _ _) as [ex|];
  [destruct Hmay as [Hmay1 Hmay2]; rewrite Hmay1, (bool_decide_false (fail_reason ex = _)) by done|];
  cbn zeta.
  all: rewrite <- negb_andb, Hw, (bool_decide_true (security_option act = 3)%Z) by lia.
  all: cbn [andb negb].
  all: rewrite andb_false_r; cbn iota.
  all: rewrite (bool_decide_true (None = None)) by done; cbn [andb].
  all: unfold face_check; rewrite Hphoto; cbn [negb]; cbn iota.
  all: rewrite (bool_decide_false (Some _ = None)) by done.
  all: eexists; split; [reflexivity|repeat split].
Qed.

Lemma attend_no_photo_spec_witness :
  ∃ rec, attend_to_attendance parse_ipv4 demo_live_redis_t3 demo_student "a3" (Some "10.0.1.5")
           None 50 demo_io
         = (inr rec, add_attendance_record rec demo_live_redis_t3, []) ∧
         is_attended rec = false ∧
         fail_reason rec = Some "FACE_VERIFICATION_REQUIRED_BUT_IMAGE_MISSING" ∧
         r_verifications (add_attendance_record rec demo_live_redis_t3)
           = r_verifications demo_live_redis_t3.
Proof.
  apply (attend_no_photo_spec parse_ipv4 demo_live_redis_t3 demo_student "a3" (Some "10.0.1.5")
           None 50 demo_io demo_session_t3);
    [reflexivity | simpl; lia | exact I | reflexivity | vm_compute; reflexivity | reflexivity].
Defined.

(** C7: a student whose record for the session is already attended or
    pending is refused with an error before any check runs: the store is
    returned unchanged and no event is emitted. *)
Theorem attend_blocked_spec ip_of r student aid sip photo now io ex :
  get_attendance_record_by_id r aid (user_school_number student) = Some ex →
  is_attended ex = true ∨ fail_reason ex = Some PENDING →
  ∃ e, attend_to_attendance ip_of r student aid sip photo now io = (inl e, r, []).
Proof.
  intros Hrec Hb.
  unfold attend_to_attendance.
  destruct (get_attendance_session r aid) as [act|]; [|eexists; reflexivity].
  case_bool_decide; [eexists; reflexivity|].
  cbn zeta. rewrite Hrec.
  destruct (is_attended ex) eqn:Ha; [eexists; reflexivity|].
  destruct Hb as [Hb|Hb]; [discriminate|].
  rewrite (bool_decide_true (fail_reason ex = Some PENDING)) by exact Hb.
  eexists; reflexivity.
Qed.

Lemma attend_blocked_spec_witness :
  ∃ e, attend_to_attendance parse_ipv4 (w_redis demo_world) demo_student "a1" (Some "10.0.1.5")
         None 50 demo_io = (inl e, w_redis demo_world, []).
Proof.
  apply (attend_blocked_spec parse_ipv4 (w_redis demo_world) demo_student "a1" (Some "10.0.1.5")
           None 50 demo_io demo_record); [reflexivity | left; reflexivity].
Defined.

(* ----------------------------------------------------------------- *)
(** ** The verifier callback *)

Lemma redis_wf_save a r : redis_wf r → redis_wf (save_attendance_session a r).
Proof.
  intros [Hs Hr]. split; [|exact Hr]. simpl.
  intros k s Hl. apply lookup_insert_Some in Hl as [[<- <-]|[_ Hl]]; [done|]. by apply Hs.
Qed.

Lemma redis_wf_add_record rec r : redis_wf r → redis_wf (add_attendance_record rec r).
Proof.
  intros [Hs Hr]. split; [exact Hs|]. simpl.
  intros k x Hl. apply lookup_insert_Some in Hl as [[<- <-]|[_ Hl]]; [done|]. by apply Hr.
Qed.

Lemma redis_wf_map_verification vid usn aid t r :
  redis_wf r → redis_wf (map_verification_to_user vid usn aid t r).
Proof. intros [Hs Hr]. split; [exact Hs|exact Hr]. Qed.

Lemma redis_wf_empty : redis_wf empty_redis.
Proof. split; simpl; intros k x Hl; by rewrite lookup_empty in Hl. Qed.

Lemma demo_pending_redis_wf : redis_wf demo_pending_redis.
Proof.
  apply redis_wf_map_verification, redis_wf_add_record, redis_wf_save, redis_wf_empty.
Qed.

Lemma verification_deleted_unresolved vid r now :
  get_user_and_attendance_for_verification (delete_verification_mapping vid r) vid now = None.
Proof.
  unfold get_user_and_attendance_for_verification. simpl. by rewrite lookup_delete_eq.
Qed.

Lemma hex_char_ascii n : n < 16 → nat_of_ascii (hex_char n) < 128.
Proof.
  intros Hn. do 16 (destruct n as [|n]; [vm_compute; lia|]). lia.
Qed.

Lemma hexdigest_ascii d : str_isascii (hexdigest d) = true.
Proof.
  induction d as [|c d IH]; [reflexivity|]. cbn [hexdigest str_isascii].
  pose proof (Ascii.nat_ascii_bounded c) as Hc.
  rewrite IH, !andb_true_r, !andb_true_iff, !Nat.ltb_lt.
  split; apply hex_char_ascii; [apply Nat.Div0.div_lt_upper_bound; lia|apply Nat.mod_upper_bound; lia].
Qed.

(** The computed signature is ASCII, so [compare_digest] decides on the
    header alone: a matching header is accepted. *)
Lemma compare_digest_signed d sig :
  hexdigest d = sig → py_compare_digest (hexdigest d) sig = Some true.
Proof.
  intros <-. unfold py_compare_digest. rewrite hexdigest_ascii. cbn [andb].
  by rewrite bool_decide_true.
Qed.

(** C3: a correctly signed passing verdict for a resolvable correlation id
    whose record exists marks the record attended at [now] with no failure
    reason, consumes the correlation entry, and answers success; delivering
    the same body and signature again changes nothing and answers the
    already-processed status, not an error. *)
Theorem webhook_pass_spec hmac secret parse r vid body sig now p usn aid rec resp r1 :
  redis_wf r →
  hexdigest (hmac secret body) = sig →
  parse body = Some p → verification_passed p = true →
  get_user_and_attendance_for_verification r vid now = Some (usn, aid) →
  get_attendance_record_by_id r aid usn = Some rec →
  update_attendance_from_webhook hmac secret parse r vid body sig now = (resp, r1) →
  resp = HttpOk StatusSuccess ∧
  (∃ rec', get_attendance_record_by_id r1 aid usn = Some rec' ∧
           is_attended rec' = true ∧ attendance_time rec' = Some now ∧ fail_reason rec' = None) ∧
  r_verifications r1 !! vid = None ∧
  (∀ now', update_attendance_from_webhook hmac secret parse r1 vid body sig now'
           = (HttpOk StatusNotFoundOrAlreadyProcessed, r1)).
Proof.
  intros [_ Hwr] Hsig Hp Hpass Hv Hrec Hup.
  pose proof (compare_digest_signed _ _ Hsig) as Hok.
  unfold update_attendance_from_webhook in Hup.
  rewrite Hok, Hp, Hv, Hrec in Hup. injection Hup as <- <-.
  pose proof (Hwr _ _ Hrec) as Hk. unfold record_key in Hk. injection Hk as Ha Hu.
  split; [reflexivity|]. split; [|split].
  - exists (apply_verdict p rec now).
    unfold apply_verdict. rewrite Hpass.
    unfold get_attendance_record_by_id, update_attendance_record, add_attendance_record,
      delete_verification_mapping, record_key. simpl.
    rewrite <- Ha, <- Hu, lookup_insert_eq. auto.
  - simpl. by rewrite lookup_delete_eq.
  - intros now'. unfold update_attendance_from_webhook.
    rewrite Hok, Hp, verification_deleted_unresolved. reflexivity.
Qed.

Lemma webhook_pass_spec_witness :
  let body := "passed"%string in
  let sig := hexdigest (demo_hmac "secret" body) in
  ∃ resp r1,
    update_attendance_from_webhook demo_hmac "secret" demo_parse demo_pending_redis "v1"
      body sig 60 = (resp, r1) ∧
    resp = HttpOk StatusSuccess ∧
    update_attendance_from_webhook demo_hmac "secret" demo_parse r1 "v1" body sig 70
      = (HttpOk StatusNotFoundOrAlreadyProcessed, r1).
Proof.
  intros body sig.
  destruct (update_attendance_from_webhook demo_hmac "secret" demo_parse demo_pending_redis "v1"
              body sig 60) as [resp r1] eqn:Hup.
  destruct (webhook_pass_spec demo_hmac "secret" demo_parse demo_pending_redis "v1" body sig 60
              (mkPayload true body) "S-201" "a3" demo_pending_record resp r1
              demo_pending_redis_wf eq_refl eq_refl eq_refl eq_refl eq_refl Hup)
    as (Hresp & _ & _ & Hagain).
  exists resp, r1. split; [reflexivity|]. split; [exact Hresp|]. apply Hagain.
Defined.




(* ----------------------------------------------------------------- *)
(** ** Finishing a session and failing a record *)

Lemma session_key_wf r aid s : redis_wf r → r_sessions r !! aid = Some s → attendance_id s = aid.
Proof. intros [Hs _] Hl. exact (Hs _ _ Hl). Qed.

(** C9: a successful [finish_attendance] keeps the live blob: it is still
    stored under its id and in both indexes, with [end_time = now] and every
    other field as before. *)
Theorem finish_attendance_keeps_live_copy r teacher aid now r' :
  redis_wf r →
  finish_attendance r teacher aid now = (None, r') →
  ∃ s s', get_attendance_session r aid = Some s ∧
    get_attendance_session r' aid = Some s' ∧
    end_time s' = now ∧
    attendance_id s' = attendance_id s ∧
    teacher_school_number s' = teacher_school_number s ∧
    teacher_full_name s' = teacher_full_name s ∧
    lesson_name s' = lesson_name s ∧
    ip_address s' = ip_address s ∧
    start_time s' = start_time s ∧
    security_option s' = security_option s ∧
    aid ∈ smembers (r_name_index r') (name_index_of (lesson_name s') (teacher_full_name s')) ∧
    aid ∈ smembers (r_teacher_index r') (teacher_school_number s').
Proof.
  intros Hwf Hfin.
  destruct (finish_attendance_ok r teacher aid now r' Hfin) as (s & Hs & ->).
  pose proof (session_key_wf r aid s Hwf Hs) as Hid.
  exists s, (set_end_time s now).
  unfold get_attendance_session, save_attendance_session, name_index_key. cbn.
  rewrite Hid, lookup_insert_eq.
  split; [exact Hs|]. do 9 (split; [reflexivity|]).
  split; apply smembers_sadd; right; done.
Qed.

Lemma finish_attendance_keeps_live_copy_witness :
  ∃ s s', get_attendance_session demo_live_redis "a1" = Some s ∧
    get_attendance_session (finish_attendance demo_live_redis demo_teacher "a1" 40).2 "a1"
      = Some s' ∧ end_time s' = 40%Z.
Proof.
  destruct (finish_attendance_keeps_live_copy demo_live_redis demo_teacher "a1" 40
              (finish_attendance demo_live_redis demo_teacher "a1" 40).2
              (redis_wf_save _ _ redis_wf_empty) eq_refl)
    as (s & s' & H1 & H2 & H3 & _).
  exists s, s'. auto.
Defined.

(** C10: a failed verdict, from the callback or from the teacher, changes
    only [is_attended] (to false) and [fail_reason]; [attendance_time] is
    carried over from the record it replaces. *)
Theorem failed_verdict_keeps_attendance_time :
  (∀ hmac secret parse r vid body sig now p usn aid rec resp r1,
     redis_wf r → hexdigest (hmac secret body) = sig →
     parse body = Some p → verification_passed p = false →
     get_user_and_attendance_for_verification r vid now = Some (usn, aid) →
     get_attendance_record_by_id r aid usn = Some rec →
     update_attendance_from_webhook hmac secret parse r vid body sig now = (resp, r1) →
     ∃ rec', get_attendance_record_by_id r1 aid usn = Some rec' ∧
       is_attended rec' = false ∧ attendance_time rec' = attendance_time rec ∧
       fail_reason rec' = Some ("FACE_VERIFICATION_FAILED: " +:+ reason p)%string ∧
       same_record_identity rec' rec) ∧
  (∀ r aid sn why rec,
     redis_wf r → get_attendance_record_by_id r aid sn = Some rec →
     ∃ rec', fail_student_in_live_attendance r aid sn why
               = (Some rec', update_attendance_record rec' r) ∧
       get_attendance_record_by_id (update_attendance_record rec' r) aid sn = Some rec' ∧
       is_attended rec' = false ∧ attendance_time rec' = attendance_time rec ∧
       fail_reason rec' = Some why ∧ same_record_identity rec' rec).
Proof.
  split.
  - intros hmac secret parse r vid body sig now p usn aid rec resp r1
      [_ Hwr] Hsig Hp Hfail Hv Hrec Hup.
    unfold update_attendance_from_webhook in Hup.
    rewrite (compare_digest_signed _ _ Hsig), Hp, Hv, Hrec in Hup. injection Hup as <- <-.
    pose proof (Hwr _ _ Hrec) as Hk. unfold record_key in Hk. injection Hk as Ha Hu.
    exists (apply_verdict p rec now).
    unfold apply_verdict. rewrite Hfail.
    unfold get_attendance_record_by_id, update_attendance_record, add_attendance_record,
      delete_verification_mapping, record_key. simpl.
    rewrite <- Ha, <- Hu, lookup_insert_eq.
    repeat split; cbn; congruence.
  - intros r aid sn why rec [_ Hwr] Hrec.
    pose proof (Hwr _ _ Hrec) as Hk. unfold record_key in Hk. injection Hk as Ha Hu.
    unfold fail_student_in_live_attendance. rewrite Hrec.
    eexists. split; [reflexivity|].
    unfold get_attendance_record_by_id, update_attendance_record, add_attendance_record,
      record_key. simpl.
    rewrite <- Ha, <- Hu, lookup_insert_eq.
    repeat split; cbn; congruence.
Qed.

Example demo_fail_keeps_time :
  fail_student_in_live_attendance (w_redis demo_world) "a1" "S-201" "manual"
  = (Some (mkRecordRedis "a1" "S-201" "Student Alpha" false (Some 50%Z) (Some "manual")
             false None None),
     update_attendance_record
       (mkRecordRedis "a1" "S-201" "Student Alpha" false (Some 50%Z) (Some "manual")
          false None None) (w_redis demo_world)).
Proof. reflexivity. Qed.

(* ----------------------------------------------------------------- *)
(** ** A teacher with a live session can open another *)

(** C8 (against the code): after ["a1"] is finished, opening ["a2"]
    succeeds; but while ["a2"] is live until 1000, a third start at 30 is
    accepted when [set.pop()] returns the finished ["a1"] (and refused when
    it returns ["a2"]). *)
Theorem start_attendance_second_live_session :
  (trace_lesson_start trace_r2 "a2" 20 1000 0).1 = inr (trace_session "a2" 20 1000) ∧
  get_attendance_session trace_r3 "a2" = Some (trace_session "a2" 20 1000) ∧
  smembers (r_teacher_index trace_r3) "T-101" = {["a1"; "a2"]} ∧
  (trace_lesson_start trace_r3 "a3" 30 1000 0).1 = inr (trace_session "a3" 30 1000) ∧
  (trace_lesson_start trace_r3 "a3" 30 1000 1).1
    = inl (ServiceError "You already have an active attendance session. Please end it first.").
Proof.
  split; [vm_compute; reflexivity|].
  split; [vm_compute; reflexivity|].
  split; [unfold smembers; vm_compute; set_solver|].
  split; vm_compute; reflexivity.
Qed.

(* ----------------------------------------------------------------- *)
(** ** Keys and indexes of the live store in every reachable state *)

Lemma reachable_ind (P : Sys → Prop) :
  P init_sys → (∀ s s', step s s' → P s → P s') → ∀ s, reachable s → P s.
Proof.
  intros H0 Hstep. unfold reachable. apply rtc_ind_r; [exact H0|].
  intros y z _ Hyz Hy. by eapply Hstep.
Qed.

Lemma index_inv_save_fresh a r c :
  index_inv r c → attendance_id a ∉ c →
  index_inv (save_attendance_session a r) ({[attendance_id a]} ∪ c).
Proof.
  intros (H1 & H2 & H3 & H4 & H5 & H6 & H7) Hf.
  unfold save_attendance_session, index_inv; cbn [r_sessions r_name_index r_teacher_index].
  split_and!.
  - intros k x Hl. apply lookup_insert_Some in Hl as [[<- <-]|[_ Hl]]; [done|]. by apply H1.
  - intros id x Hl. apply lookup_insert_Some in Hl as [[<- <-]|[_ Hl]]; [set_solver|].
    apply elem_of_union_r. by eapply H2.
  - intros nk id Hin. apply smembers_sadd in Hin as [Hin|[_ ->]]; [|set_solver].
    apply elem_of_union_r. by eapply H3.
  - intros tk id Hin. apply smembers_sadd in Hin as [Hin|[_ ->]]; [|set_solver].
    apply elem_of_union_r. by eapply H4.
  - intros nk id x Hin Hl. apply smembers_sadd in Hin as [Hin|[<- ->]].
    + apply lookup_insert_Some in Hl as [[<- <-]|[_ Hl]].
      * exfalso. apply Hf. by eapply H3.
      * by eapply H5.
    + rewrite lookup_insert_eq in Hl. by injection Hl as <-.
  - intros tk id x Hin Hl. apply smembers_sadd in Hin as [Hin|[<- ->]].
    + apply lookup_insert_Some in Hl as [[<- <-]|[_ Hl]].
      * exfalso. apply Hf. by eapply H4.
      * by eapply H6.
    + rewrite lookup_insert_eq in Hl. by injection Hl as <-.
  - intros id x Hl. apply lookup_insert_Some in Hl as [[<- <-]|[_ Hl]].
    + split; apply smembers_sadd; right; done.
    + destruct (H7 id x Hl) as [Ha Hb]. split; apply smembers_sadd; left; done.
Qed.

Lemma index_inv_save_same a r c s0 :
  index_inv r c → r_sessions r !! attendance_id a = Some s0 →
  name_index_key a = name_index_key s0 → teacher_school_number a = teacher_school_number s0 →
  index_inv (save_attendance_session a r) c.
Proof.
  intros (H1 & H2 & H3 & H4 & H5 & H6 & H7) Hs0 Hn Ht.
  assert (Hc : attendance_id a ∈ c) by (by eapply H2).
  unfold save_attendance_session, index_inv; cbn [r_sessions r_name_index r_teacher_index].
  split_and!.
  - intros k x Hl. apply lookup_insert_Some in Hl as [[<- <-]|[_ Hl]]; [done|]. by apply H1.
  - intros id x Hl. apply lookup_insert_Some in Hl as [[<- <-]|[_ Hl]]; [done|]. by eapply H2.
  - intros nk id Hin. apply smembers_sadd in Hin as [Hin|[_ ->]]; [by eapply H3|done].
  - intros tk id Hin. apply smembers_sadd in Hin as [Hin|[_ ->]]; [by eapply H4|done].
  - intros nk id x Hin Hl. apply smembers_sadd in Hin as [Hin|[<- ->]].
    + apply lookup_insert_Some in Hl as [[<- <-]|[_ Hl]].
      * rewrite Hn. by eapply H5.
      * by eapply H5.
    + rewrite lookup_insert_eq in Hl. by injection Hl as <-.
  - intros tk id x Hin Hl. apply smembers_sadd in Hin as [Hin|[<- ->]].
    + apply lookup_insert_Some in Hl as [[<- <-]|[_ Hl]].
      * rewrite Ht. by eapply H6.
      * by eapply H6.
    + rewrite lookup_insert_eq in Hl. by injection Hl as <-.
  - intros id x Hl. apply lookup_insert_Some in Hl as [[<- <-]|[_ Hl]].
    + split; apply smembers_sadd; right; done.
    + destruct (H7 id x Hl) as [Ha Hb]. split; apply smembers_sadd; left; done.
Qed.

Lemma index_inv_cleanup a recs r c :
  index_inv r c → index_inv (sweep_cleanup a recs r) c.
Proof.
  intros (H1 & H2 & H3 & H4 & H5 & H6 & H7).
  unfold index_inv.
  rewrite sweep_cleanup_sessions, sweep_cleanup_name_index, sweep_cleanup_teacher_index.
  split_and!.
  - intros k x Hl. apply lookup_delete_Some in Hl as [_ Hl]. by apply H1.
  - intros id x Hl. apply lookup_delete_Some in Hl as [_ Hl]. by eapply H2.
  - intros nk id Hin. apply smembers_srem in Hin as [Hin _]. by eapply H3.
  - intros tk id Hin. apply smembers_srem in Hin as [Hin _]. by eapply H4.
  - intros nk id x Hin Hl. apply smembers_srem in Hin as [Hin _].
    apply lookup_delete_Some in Hl as [_ Hl]. by eapply H5.
  - intros tk id x Hin Hl. apply smembers_srem in Hin as [Hin _].
    apply lookup_delete_Some in Hl as [_ Hl]. by eapply H6.
  - intros id x Hl. apply lookup_delete_Some in Hl as [Hne Hl].
    destruct (H7 id x Hl) as [Ha Hb].
    split; apply smembers_srem; (split; [done|]); intros [_ ?]; congruence.
Qed.

Lemma index_inv_step s s' :
  step s s' → index_inv (w_redis (sys_world s)) (sys_created s) →
  index_inv (w_redis (sys_world s')) (sys_created s').
Proof.
  intros Hstep Hinv. destruct Hstep as
    [s teacher lesson ip st et sec new_id now pop a r' Hfresh Hstart
    |s teacher aid now r' Hfin
    |s rec
    |s now key a Hnone Hget Hexp recs
    |s a recs Hin
    |s x Hin]; cbn [sys_world sys_created w_redis with_redis] in *.
  - apply start_attendance_inr in Hstart as [Hid ->].
    rewrite <- Hid. apply index_inv_save_fresh; [done|by rewrite Hid].
  - apply finish_attendance_ok in Hfin as (s0 & Hs0 & ->).
    pose proof (proj1 Hinv _ _ Hs0) as Hid.
    apply (index_inv_save_same _ _ _ s0 Hinv); [|done|done].
    cbn. by rewrite Hid.
  - exact Hinv.
  - exact Hinv.
  - by apply index_inv_cleanup.
  - exact Hinv.
Qed.

Lemma index_inv_reachable s : reachable s → index_inv (w_redis (sys_world s)) (sys_created s).
Proof.
  revert s. apply reachable_ind; [|apply index_inv_step].
  unfold index_inv, smembers; cbn; split_and!; intros *; rewrite ?lookup_empty; cbn;
    try discriminate; set_solver.
Qed.

Lemma NoDup_omap_inj {A B} (f : A → option B) (l : list A) :
  (∀ x y z, f x = Some z → f y = Some z → x = y) → NoDup l → NoDup (omap f l).
Proof.
  intros Hinj. induction 1 as [|x l Hx Hl IH]; [constructor|].
  simpl. destruct (f x) as [z|] eqn:Hfx; [|exact IH].
  constructor; [|exact IH].
  intros Hz. apply list_elem_of_omap in Hz as (y & Hy & Hfy).
  apply Hx. by rewrite (Hinj x y z Hfx Hfy).
Qed.

(** The student's search by lesson and teacher name, in every reachable
    state: a session is listed iff it is stored under its id, its lesson
    and teacher name join to the same index key [{lesson}:{teacher}] as
    the ones asked for, and it has not ended; no session is listed twice. *)
Theorem find_active_sessions_by_name_exact s lesson teacher now :
  reachable s →
  let r := w_redis (sys_world s) in
  NoDup (find_active_sessions_by_name r lesson teacher now) ∧
  ∀ a, a ∈ find_active_sessions_by_name r lesson teacher now ↔
       get_attendance_session r (attendance_id a) = Some a ∧
       name_index_key a = name_index_of lesson teacher ∧ (now < end_time a)%Z.
Proof.
  intros Hr r. pose proof (index_inv_reachable s Hr) as (H1 & _ & _ & _ & H5 & _ & H7).
  fold r in H1, H5, H7.
  unfold find_active_sessions_by_name, get_attendance_sessions_by_name, get_attendance_session.
  split.
  - apply NoDup_filter, NoDup_omap_inj; [|apply NoDup_elements].
    intros x y z Hx Hy. rewrite <- (H1 x z Hx), <- (H1 y z Hy). done.
  - intros a. rewrite list_elem_of_filter, list_elem_of_omap. split.
    + intros [Hlive (id & Hid & Hl)]. apply elem_of_elements in Hid.
      pose proof (H5 _ _ _ Hid Hl) as Hk. rewrite (H1 _ _ Hl). auto.
    + intros (Hl & Hk & Hlive). split; [done|].
      exists (attendance_id a). split; [|done].
      apply elem_of_elements. rewrite <- Hk. exact (proj1 (H7 _ _ Hl)).
Qed.

(** The teacher's lookup of an active session, in every reachable state:
    when it returns a session, that session is stored under its id,
    belongs to the teacher asked about and has not ended. *)
Theorem get_attendance_session_of_teacher_sound s tsn now pop a :
  reachable s →
  get_attendance_session_of_teacher (w_redis (sys_world s)) tsn now pop = Some a →
  get_attendance_session (w_redis (sys_world s)) (attendance_id a) = Some a ∧
  teacher_school_number a = tsn ∧ (now < end_time a)%Z.
Proof.
  intros Hr. pose proof (index_inv_reachable s Hr) as (H1 & _ & _ & _ & _ & H6 & _).
  unfold get_attendance_session_of_teacher, get_attendance_session, set_pop.
  destruct (elements _ !! _) as [id|] eqn:Hpop; [|discriminate].
  destruct (r_sessions _ !! id) as [x|] eqn:Hl; [|discriminate].
  case_bool_decide as Hlive; [|discriminate]. intros [= <-].
  apply list_elem_of_lookup_2, elem_of_elements in Hpop.
  rewrite (H1 _ _ Hl). split_and!; [done| |done]. by eapply H6.
Qed.

Lemma find_active_sessions_by_name_exact_witness :
  reachable sys_mid_sweep ∧
  demo_session ∈ find_active_sessions_by_name (w_redis (sys_world sys_mid_sweep))
                   "Integration Lesson" "Dr. Integration" 50.
Proof.
  split; [exact sys_mid_sweep_reachable|].
  apply (proj2 (find_active_sessions_by_name_exact sys_mid_sweep "Integration Lesson"
                  "Dr. Integration" 50 sys_mid_sweep_reachable) demo_session).
  split_and!; [reflexivity|reflexivity|simpl; lia].
Defined.

Lemma get_attendance_session_of_teacher_sound_witness :
  reachable sys_mid_sweep ∧
  get_attendance_session_of_teacher (w_redis (sys_world sys_mid_sweep)) "T-101" 50 0
    = Some demo_session ∧
  teacher_school_number demo_session = "T-101".
Proof.
  assert (H : get_attendance_session_of_teacher (w_redis (sys_world sys_mid_sweep)) "T-101" 50 0
              = Some demo_session) by (vm_compute; reflexivity).
  split; [exact sys_mid_sweep_reachable|]. split; [exact H|].
  exact (proj1 (proj2 (get_attendance_session_of_teacher_sound sys_mid_sweep "T-101" 50 0
                         demo_session sys_mid_sweep_reachable H))).
Defined.

(* ----------------------------------------------------------------- *)
(** ** The correlation map of face verification *)

Lemma split_colon_cons s : ∃ p ps, split_colon s = p :: ps.
Proof.
  induction s as [|c s (p & ps & IH)]; [by eexists _, _|].
  simpl. rewrite IH. destruct (Ascii.eqb c ":"%char); eauto.
Qed.

Lemma split_colon_app_colon u v :
  split_colon (u +:+ ":" +:+ v)%string = split_colon u ++ split_colon v.
Proof.
  induction u as [|c u IH].
  - change ((EmptyString +:+ ":" +:+ v)%string) with (String ":"%char v). cbn [split_colon].
    destruct (split_colon_cons v) as (p & ps & Hv). by rewrite Hv.
  - change ((String c u +:+ ":" +:+ v)%string) with (String c (u +:+ ":" +:+ v)%string).
    cbn [split_colon]. rewrite IH.
    destruct (split_colon_cons u) as (p & ps & Hu). rewrite Hu. simpl.
    by destruct (Ascii.eqb c ":"%char).
Qed.

Lemma split_colon_single s x : split_colon s = [x] → x = s.
Proof.
  revert x. induction s as [|c s IH]; intros x; simpl; [congruence|].
  destruct (split_colon_cons s) as (p & ps & Hs). rewrite Hs.
  destruct (Ascii.eqb c ":"%char); [congruence|].
  intros [= <- ->]. by rewrite (IH p Hs).
Qed.

(** Writing the correlation entry ["usn:aid"] at [now] and reading it back
    before it expires (at most [VERIFICATION_TTL] seconds later) gives the
    pair that was written exactly when neither part contains the separator
    [':'] (the code's own [split(':')] leaves each in one piece). *)
Theorem verification_mapping_round_trip vid usn aid r now now' :
  (now' <= now + VERIFICATION_TTL)%Z →
  get_user_and_attendance_for_verification (map_verification_to_user vid usn aid now r) vid now'
    = Some (usn, aid) ↔
  split_colon usn = [usn] ∧ split_colon aid = [aid].
Proof.
  intros Httl.
  unfold get_user_and_attendance_for_verification, map_verification_to_user.
  cbn [r_verifications]. rewrite lookup_insert_eq.
  rewrite (bool_decide_false (_ < now')%Z) by lia.
  rewrite (bool_decide_false (_ = EmptyString)) by (destruct usn; discriminate).
  rewrite split_colon_app_colon.
  destruct (split_colon_cons usn) as (p & ps & Hu), (split_colon_cons aid) as (q & qs & Ha).
  rewrite Hu, Ha.
  destruct ps as [|p' ps], qs as [|q' qs]; simpl.
  - split.
    + intros [= -> ->]. split; reflexivity.
    + intros [[= ->] [= ->]]. reflexivity.
  - split; [discriminate|]. intros [_ Hq]. discriminate.
  - destruct ps; simpl; (split; [discriminate|]); intros [Hp _]; discriminate.
  - destruct ps; simpl; (split; [discriminate|]); intros [Hp _]; discriminate.
Qed.

Lemma verification_mapping_round_trip_witness :
  get_user_and_attendance_for_verification
    (map_verification_to_user "v1" "S-201" "a3" 40 demo_live_redis_t3) "v1" 340
  = Some ("S-201"%string, "a3"%string).
Proof.
  apply (proj2 (verification_mapping_round_trip "v1" "S-201" "a3" demo_live_redis_t3 40 340
                  ltac:(unfold VERIFICATION_TTL; lia))).
  split; reflexivity.
Defined.

Lemma map_verification_lookup vid usn aid r now now' :
  (now' <= now + VERIFICATION_TTL)%Z →
  split_colon usn = [usn] → split_colon aid = [aid] →
  get_user_and_attendance_for_verification (map_verification_to_user vid usn aid now r) vid now'
    = Some (usn, aid).
Proof.
  intros Httl Hu Ha.
  unfold get_user_and_attendance_for_verification, map_verification_to_user.
  cbn [r_verifications]. rewrite lookup_insert_eq.
  rewrite (bool_decide_false (_ < now')%Z) by lia.
  rewrite (bool_decide_false (_ = EmptyString)) by (destruct usn; discriminate).
  by rewrite split_colon_app_colon, Hu, Ha.
Qed.

(* ----------------------------------------------------------------- *)
(** ** A tier-3 attempt and its verdict *)

(** A tier-3 attempt with a photo, a reference image on file and a job the
    verifier accepts leaves a pending record and a correlation entry; the
    verifier's signed passing verdict, arriving before the entry expires,
    then turns that record into an attended one at the callback's time and
    consumes the entry. *)
Theorem face_verification_round_trip ip_of hmac secret parse r student aid sip photo now io
    act us url img body sig now' p :
  redis_wf r →
  get_attendance_session r aid = Some act → (now < end_time act)%Z →
  may_attempt r aid (user_school_number student) →
  security_option act = 3%Z →
  truthy sip && verify_wifi ip_of (ip_address act) (default EmptyString sip) = true →
  truthy photo = true →
  get_user_session r (user_school_number student) = Some us →
  image_url us = Some url → url ≠ EmptyString →
  io_reference_image io = Some img → io_submit_accepted io = true →
  split_colon (user_school_number student) = [user_school_number student] →
  split_colon aid = [aid] →
  hexdigest (hmac secret body) = sig → parse body = Some p → verification_passed p = true →
  (now' <= now + VERIFICATION_TTL)%Z →
  ∃ rec r1 r2,
    attend_to_attendance ip_of r student aid sip photo now io
      = (inr rec, r1, [EvDownloadReference url;
                       EvSubmitJob (io_verification_id io) (user_school_number student) aid]) ∧
    is_attended rec = false ∧ fail_reason rec = Some PENDING ∧
    get_attendance_record_by_id r1 aid (user_school_number student) = Some rec ∧
    update_attendance_from_webhook hmac secret parse r1 (io_verification_id io) body sig now'
      = (HttpOk StatusSuccess, r2) ∧
    (∃ rec', get_attendance_record_by_id r2 aid (user_school_number student) = Some rec' ∧
             is_attended rec' = true ∧ attendance_time rec' = Some now' ∧
             fail_reason rec' = None) ∧
    r_verifications r2 !! io_verification_id io = None.
Proof.
  intros Hwf Hact Hlive Hmay Hsec Hw Hphoto Hus Hurl Hne Himg Hacc Hcu Hca Hsig Hp Hpass Httl.
  assert (Hid : attendance_id act = aid) by (by eapply session_key_wf).
  set (usn := user_school_number student) in *.
  set (vid := io_verification_id io).
  set (rec := mkRecordRedis aid usn (user_full_name student) false None (Some PENDING)
                false None None).
  set (r1 := add_attendance_record rec (map_verification_to_user vid usn aid now r)).
  assert (Hatt : attend_to_attendance ip_of r student aid sip photo now io
                 = (inr rec, r1, [EvDownloadReference url; EvSubmitJob vid usn aid])).
  { unfold attend_to_attendance; rewrite Hact.
    rewrite (bool_decide_false (_ <= _)%Z) by lia.
    unfold may_attempt in Hmay. fold usn.
    destruct (get_attendance_record_by_id _ _ _) as [ex|];
    [destruct Hmay as [Hmay1 Hmay2]; rewrite Hmay1, (bool_decide_false (fail_reason ex = _)) by done|];
    cbn zeta.
    all: rewrite <- negb_andb, Hw, (bool_decide_true (security_option act = 3)%Z) by lia.
    all: cbn [andb negb].
    all: rewrite andb_false_r; cbn iota.
    all: rewrite (bool_decide_true (None = None)) by done; cbn [andb].
    all: unfold face_check; rewrite Hphoto; cbn [negb]; cbn iota.
    all: fold usn; rewrite Hus, Hurl, (bool_decide_false (url = EmptyString)) by exact Hne.
    all: rewrite Himg; unfold submit_face_verification_job; rewrite Hacc.
    all: rewrite (bool_decide_false (Some PENDING = None)) by done.
    all: rewrite Hid; reflexivity. }
  assert (Hrec1 : get_attendance_record_by_id r1 aid usn = Some rec).
  { unfold get_attendance_record_by_id, r1, add_attendance_record, record_key. cbn.
    apply lookup_insert_eq. }
  assert (Hv1 : get_user_and_attendance_for_verification r1 vid now' = Some (usn, aid)).
  { exact (map_verification_lookup vid usn aid r now now' Httl Hcu Hca). }
  exists rec, r1,
    (delete_verification_mapping vid (update_attendance_record (apply_verdict p rec now') r1)).
  split_and!; [exact Hatt|reflexivity|reflexivity|exact Hrec1| | |].
  - unfold update_attendance_from_webhook.
    rewrite (compare_digest_signed _ _ Hsig), Hp. fold vid.
    rewrite Hv1, Hrec1. reflexivity.
  - exists (apply_verdict p rec now'). unfold apply_verdict. rewrite Hpass.
    unfold get_attendance_record_by_id, update_attendance_record, add_attendance_record,
      delete_verification_mapping, record_key. cbn.
    rewrite lookup_insert_eq. auto.
  - cbn. apply lookup_delete_eq.
Qed.

Lemma demo_t3_redis_wf : redis_wf demo_t3_redis.
Proof.
  destruct (redis_wf_save demo_session_t3 empty_redis redis_wf_empty) as [H1 H2].
  split; [exact H1|exact H2].
Qed.

Lemma face_verification_round_trip_witness :
  ∃ rec r1 r2,
    attend_to_attendance parse_ipv4 demo_t3_redis demo_student "a3" (Some "10.0.1.7")
      (Some "photo-bytes") 50 demo_io
      = (inr rec, r1, [EvDownloadReference demo_reference_url; EvSubmitJob "v1" "S-201" "a3"]) ∧
    update_attendance_from_webhook demo_hmac "secret" demo_parse r1 "v1" "passed"
      (hexdigest (demo_hmac "secret" "passed")) 60 = (HttpOk StatusSuccess, r2).
Proof.
  destruct (face_verification_round_trip parse_ipv4 demo_hmac "secret" demo_parse demo_t3_redis
              demo_student "a3" (Some "10.0.1.7") (Some "photo-bytes") 50 demo_io demo_session_t3
              (mkUserSession demo_student (Some demo_reference_url)) demo_reference_url
              "reference-bytes" "passed" (hexdigest (demo_hmac "secret" "passed")) 60
              (mkPayload true "passed")
              demo_t3_redis_wf eq_refl ltac:(simpl; lia) I eq_refl ltac:(vm_compute; reflexivity)
              eq_refl eq_refl eq_refl ltac:(discriminate) eq_refl eq_refl eq_refl eq_refl
              eq_refl eq_refl eq_refl ltac:(unfold VERIFICATION_TTL; lia))
    as (rec & r1 & r2 & H1 & _ & _ & _ & H2 & _).
  exists rec, r1, r2. split; [exact H1|exact H2].
Defined.

(* ----------------------------------------------------------------- *)
(** ** What an attempt writes, and reading it back *)

Lemma face_check_frame r student act photo now io x r1 evs :
  face_check r student act photo now io = (x, r1, evs) →
  r_sessions r1 = r_sessions r ∧ r_records r1 = r_records r.
Proof.
  unfold face_check.
  destruct (negb (truthy photo)); [intros [= _ <- _]; done|].
  destruct (get_user_session _ _) as [us|]; [|intros [= _ <- _]; done].
  destruct (image_url us) as [url|]; [|intros [= _ <- _]; done].
  case_bool_decide; [intros [= _ <- _]; done|].
  destruct (io_reference_image io); [|intros [= _ <- _]; done].
  unfold submit_face_verification_job.
  destruct (io_submit_accepted io); intros [= _ <- _]; done.
Qed.

(** Every record an attempt returns is the one it stores, under the
    session's id and the student's number, over a store whose sessions
    and records are otherwise those it started from. *)
Lemma attend_inr_shape ip_of r student aid sip photo now io rec r' evs :
  attend_to_attendance ip_of r student aid sip photo now io = (inr rec, r', evs) →
  ∃ act r1, get_attendance_session r aid = Some act ∧ (now < end_time act)%Z ∧
    r' = add_attendance_record rec r1 ∧
    r_sessions r1 = r_sessions r ∧ r_records r1 = r_records r ∧
    rec_attendance_id rec = attendance_id act ∧
    student_number rec = user_school_number student.
Proof.
  unfold attend_to_attendance.
  destruct (get_attendance_session r aid) as [act|]; [|discriminate].
  case_bool_decide as Hend; [discriminate|]. cbn zeta.
  destruct (match get_attendance_record_by_id r aid (user_school_number student) with
            | Some ex => _ | None => None end) as [res|] eqn:Hb.
  { destruct (get_attendance_record_by_id r aid (user_school_number student)) as [ex|];
      [|discriminate].
    destruct (is_attended ex); [injection Hb as <-; discriminate|].
    case_bool_decide; [injection Hb as <-; discriminate|discriminate]. }
  match goal with
  | |- context [if ?c then face_check ?a1 ?a2 ?a3 ?a4 ?a5 ?a6 else ?e] =>
      destruct c; [destruct (face_check a1 a2 a3 a4 a5 a6) as [[x r1] evs1] eqn:Hf
                  |destruct e as [[x r1] evs1] eqn:Hf]
  end.
  - apply face_check_frame in Hf as [Hs Hr].
    destruct x as [|fail]; [discriminate|]. intros [= <- <- _].
    exists act, r1. split_and!; try done; lia.
  - injection Hf as <- <- _. intros [= <- <- _].
    exists act, r. split_and!; try done; lia.
Qed.

(** A student who made an attempt reads back, through the status query,
    the record the attempt returned as long as the session has not ended,
    and is refused once it has. *)
Theorem attempt_then_status ip_of r student aid sip photo now io rec r' evs now' :
  redis_wf r →
  attend_to_attendance ip_of r student aid sip photo now io = (inr rec, r', evs) →
  ∃ act, get_attendance_session r aid = Some act ∧
    ((now' < end_time act)%Z → get_my_attendance_status r' aid student now' = inr (Some rec)) ∧
    ((end_time act <= now')%Z →
       get_my_attendance_status r' aid student now'
       = inl (ServiceError "This attendance session has already ended.")).
Proof.
  intros Hwf Hatt.
  destruct (attend_inr_shape _ _ _ _ _ _ _ _ _ _ _ Hatt)
    as (act & r1 & Hact & _ & -> & Hs & _ & Hra & Hsn).
  pose proof (session_key_wf r aid act Hwf Hact) as Hid.
  assert (Hact' : get_attendance_session (add_attendance_record rec r1) aid = Some act).
  { unfold get_attendance_session. cbn. by rewrite Hs. }
  exists act. split; [exact Hact|]. unfold get_my_attendance_status. rewrite Hact'. split.
  - intros Hlive. rewrite (bool_decide_false (_ <= _)%Z) by lia. f_equal.
    unfold get_attendance_record_by_id, add_attendance_record, record_key. cbn.
    rewrite Hra, Hsn, Hid. apply lookup_insert_eq.
  - intros Hend. by rewrite (bool_decide_true (_ <= _)%Z) by lia.
Qed.

Lemma attempt_then_status_witness :
  ∃ act, get_attendance_session demo_live_redis "a1" = Some act ∧
    ((60 < end_time act)%Z →
     get_my_attendance_status (add_attendance_record demo_attempt_record demo_live_redis)
       "a1" demo_student 60 = inr (Some demo_attempt_record)) ∧
    ((end_time act <= 60)%Z →
     get_my_attendance_status (add_attendance_record demo_attempt_record demo_live_redis)
       "a1" demo_student 60 = inl (ServiceError "This attendance session has already ended.")).
Proof.
  apply (attempt_then_status parse_ipv4 demo_live_redis demo_student "a1" (Some "10.0.1.9") None
           50 demo_io demo_attempt_record
           (add_attendance_record demo_attempt_record demo_live_redis) [] 60).
  - exact (redis_wf_save _ _ redis_wf_empty).
  - vm_compute. reflexivity.
Defined.

(* ----------------------------------------------------------------- *)
(** ** Manual decisions of the teacher on a live session *)

Lemma attend_refused_if_attended ip_of r student aid sip photo now io ex :
  get_attendance_record_by_id r aid (user_school_number student) = Some ex →
  is_attended ex = true →
  ∃ e, attend_to_attendance ip_of r student aid sip photo now io = (inl e, r, []).
Proof.
  intros Hrec Ha. unfold attend_to_attendance.
  destruct (get_attendance_session r aid) as [act|]; [|eexists; reflexivity].
  case_bool_decide; [eexists; reflexivity|].
  cbn zeta. rewrite Hrec, Ha. eexists; reflexivity.
Qed.

(** [accept_student_attendance] does nothing without a record; with one,
    it stores it as attended at [now] with no failure reason, keeping the
    record's identity, and from then on every attempt of that student at
    that session is refused without touching the store. *)
Theorem accept_student_attendance_spec r aid sn now :
  redis_wf r →
  (get_attendance_record_by_id r aid sn = None →
   accept_student_attendance r aid sn now = (None, r)) ∧
  (∀ rec, get_attendance_record_by_id r aid sn = Some rec →
   ∃ rec' r', accept_student_attendance r aid sn now = (Some rec', r') ∧
     get_attendance_record_by_id r' aid sn = Some rec' ∧
     is_attended rec' = true ∧ attendance_time rec' = Some now ∧ fail_reason rec' = None ∧
     same_record_identity rec' rec ∧
     ∀ ip_of student sip photo now2 io, user_school_number student = sn →
       ∃ e, attend_to_attendance ip_of r' student aid sip photo now2 io = (inl e, r', [])).
Proof.
  intros [_ Hwr]. unfold accept_student_attendance. split.
  - by intros ->.
  - intros rec Hrec. rewrite Hrec.
    pose proof (Hwr _ _ Hrec) as Hk. unfold record_key in Hk. injection Hk as Ha Hu.
    set (rec' := mkRecordRedis (rec_attendance_id rec) (student_number rec)
                   (student_full_name rec) true (Some now) None
                   (rec_is_deleted rec) (rec_deletion_reason rec) (rec_deletion_time rec)).
    assert (Hl : get_attendance_record_by_id (update_attendance_record rec' r) aid sn = Some rec').
    { unfold get_attendance_record_by_id, update_attendance_record, add_attendance_record,
        record_key. cbn. rewrite Ha, Hu. apply lookup_insert_eq. }
    exists rec', (update_attendance_record rec' r).
    split_and!; try reflexivity; [exact Hl|repeat split|].
    intros ip_of student sip photo now2 io Hsn.
    apply (attend_refused_if_attended _ _ _ _ _ _ _ _ rec'); [by rewrite Hsn|reflexivity].
Qed.

Lemma accept_student_attendance_spec_witness :
  accept_student_attendance (w_redis demo_world) "a2" "S-201" 70 = (None, w_redis demo_world) ∧
  ∃ rec' r', accept_student_attendance demo_pending_redis "a3" "S-201" 70 = (Some rec', r') ∧
    is_attended rec' = true ∧ attendance_time rec' = Some 70%Z ∧
    ∃ e, attend_to_attendance parse_ipv4 r' demo_student "a3" (Some "10.0.1.7") None 80 demo_io
         = (inl e, r', []).
Proof.
  split.
  - apply (proj1 (accept_student_attendance_spec (w_redis demo_world) "a2" "S-201" 70
                    demo_world_wf)).
    reflexivity.
  - destruct (proj2 (accept_student_attendance_spec demo_pending_redis "a3" "S-201" 70
                       demo_pending_redis_wf) demo_pending_record eq_refl)
      as (rec' & r' & Hacc & _ & Hatt & Htime & _ & _ & Hblock).
    exists rec', r'. split_and!; [exact Hacc|exact Hatt|exact Htime|].
    exact (Hblock parse_ipv4 demo_student (Some "10.0.1.7") None 80%Z demo_io eq_refl).
Defined.

(** After the teacher fails a student on a live session, the student may
    attempt again exactly when the reason the teacher typed is not the
    pending marker ["FACE_RECOGNITION_PENDING"]; with that reason the
    student is locked out as if a verification were running. *)
Theorem fail_student_then_reattempt r aid sn why rec' r' :
  redis_wf r →
  fail_student_in_live_attendance r aid sn why = (Some rec', r') →
  may_attempt r' aid sn ↔ why ≠ PENDING.
Proof.
  intros [_ Hwr]. unfold fail_student_in_live_attendance.
  destruct (get_attendance_record_by_id r aid sn) as [rec|] eqn:Hrec; [|discriminate].
  intros [= <- <-].
  pose proof (Hwr _ _ Hrec) as Hk. unfold record_key in Hk. injection Hk as Ha Hu.
  unfold may_attempt, get_attendance_record_by_id, update_attendance_record,
    add_attendance_record, record_key. cbn. rewrite <- Ha, <- Hu, lookup_insert_eq. cbn.
  split.
  - intros [_ H] ->. by apply H.
  - intros H. split; [reflexivity|]. intros [= ->]. by apply H.
Qed.

Lemma fail_student_then_reattempt_witness :
  may_attempt (update_attendance_record
                 (mkRecordRedis "a1" "S-201" "Student Alpha" false (Some 50%Z) (Some "manual")
                    false None None) (w_redis demo_world)) "a1" "S-201".
Proof.
  apply (fail_student_then_reattempt (w_redis demo_world) "a1" "S-201" "manual"
           (mkRecordRedis "a1" "S-201" "Student Alpha" false (Some 50%Z) (Some "manual")
              false None None) _ demo_world_wf eq_refl).
  discriminate.
Defined.

(* ----------------------------------------------------------------- *)
(** ** Tier 1 and closed sessions *)

(** On a session whose security option is below 2, an attempt the
    student's record does not block is accepted at once, attended at
    [now], whatever the caller's address and photo. *)
Theorem attend_low_tier_accepted ip_of r student aid sip photo now io act :
  get_attendance_session r aid = Some act → (now < end_time act)%Z →
  may_attempt r aid (user_school_number student) →
  (security_option act < 2)%Z →
  ∃ rec, attend_to_attendance ip_of r student aid sip photo now io
         = (inr rec, add_attendance_record rec r, []) ∧
         is_attended rec = true ∧ attendance_time rec = Some now ∧ fail_reason rec = None.
Proof.
  intros Hact Hlive Hmay Hsec.
  unfold attend_to_attendance; rewrite Hact.
  rewrite (bool_decide_false (_ <= now)%Z) by lia.
  unfold may_attempt in Hmay.
  destruct (get_attendance_record_by_id _ _ _) as [ex|];
  [destruct Hmay as [Hmay1 Hmay2]; rewrite Hmay1, (bool_decide_false (fail_reason ex = _)) by done|];
  cbn zeta.
  all: rewrite (bool_decide_false (2 <= _)%Z) by lia.
  all: rewrite (bool_decide_false (security_option act = 3)%Z) by lia.
  all: cbn [andb]; cbn iota.
  all: rewrite (bool_decide_true (None = None)) by done.
  all: eexists; split; [reflexivity|repeat split].
Qed.

Lemma attend_low_tier_accepted_witness :
  ∃ rec, attend_to_attendance parse_ipv4 demo_live_redis_t1 demo_student "a4" None None 50 demo_io
         = (inr rec, add_attendance_record rec demo_live_redis_t1, []) ∧
         is_attended rec = true ∧ attendance_time rec = Some 50%Z ∧ fail_reason rec = None.
Proof.
  apply (attend_low_tier_accepted parse_ipv4 demo_live_redis_t1 demo_student "a4" None None 50
           demo_io demo_session_t1); [reflexivity|simpl; lia|exact I|simpl; lia].
Defined.

(** An attempt at a session that is not in the live store, or whose
    [end_time] is not after [now], is refused with an error; nothing is
    written and nothing is sent. *)
Theorem attend_closed_session ip_of r student aid sip photo now io :
  get_attendance_session r aid = None ∨
  (∃ act, get_attendance_session r aid = Some act ∧ (end_time act <= now)%Z) →
  attend_to_attendance ip_of r student aid sip photo now io
  = (inl (ServiceError (if bool_decide (get_attendance_session r aid = None)
                        then "This attendance session does not exist."
                        else "This attendance session has already ended.")), r, []).
Proof.
  intros [Hn|(act & Hact & Hend)]; unfold attend_to_attendance.
  - rewrite Hn. reflexivity.
  - rewrite Hact, (bool_decide_true (_ <= now)%Z) by lia. reflexivity.
Qed.

Lemma attend_closed_session_witness :
  attend_to_attendance parse_ipv4 demo_live_redis demo_student "a1" (Some "10.0.1.5") None 100
    demo_io
  = (inl (ServiceError "This attendance session has already ended."), demo_live_redis, []).
Proof.
  apply (attend_closed_session parse_ipv4 demo_live_redis demo_student "a1" (Some "10.0.1.5")
           None 100 demo_io).
  right. exists demo_session. split; [reflexivity|simpl; lia].
Defined.

(* ----------------------------------------------------------------- *)
(** ** The durable store: visibility, updates and soft deletes *)

Lemma rows_elem_of (m : gmap (string * string) AttendanceRecord) y :
  map_Forall (fun k x => k = dbr_key x) m → y ∈ (map_to_list m).*2 ↔ m !! dbr_key y = Some y.
Proof.
  intros Hwf. rewrite list_elem_of_fmap. split.
  - intros [[k x] [-> Hin]]. apply elem_of_map_to_list in Hin. simpl.
    rewrite <- (Hwf _ _ Hin). exact Hin.
  - intros Hl. exists (dbr_key y, y). split; [done|]. by apply elem_of_map_to_list.
Qed.

Lemma attendance_rows_elem_of (m : gmap string Attendance) a :
  map_Forall (fun k x => db_attendance_id x = k) m →
  a ∈ (map_to_list m).*2 ↔ m !! db_attendance_id a = Some a.
Proof.
  intros Hwf. rewrite list_elem_of_fmap. split.
  - intros [[k x] [-> Hin]]. apply elem_of_map_to_list in Hin. simpl.
    rewrite (Hwf _ _ Hin). exact Hin.
  - intros Hl. exists (db_attendance_id a, a). split; [done|]. by apply elem_of_map_to_list.
Qed.

Lemma db_get_attendance_records_elem d aid y :
  db_wf d →
  y ∈ db_get_attendance_records d aid ↔
  d_records d !! dbr_key y = Some y ∧ dbr_attendance_id y = aid ∧ dbr_is_deleted y = false.
Proof.
  intros [_ Hwf]. unfold db_get_attendance_records.
  rewrite list_elem_of_filter, rows_elem_of by exact Hwf. tauto.
Qed.

Lemma get_attendances_elem d tsn a :
  db_wf d →
  a ∈ get_attendances d tsn ↔
  d_attendances d !! db_attendance_id a = Some a ∧ db_teacher_school_number a = tsn ∧
  db_is_deleted a = false.
Proof.
  intros [Hwf _]. unfold get_attendances.
  rewrite list_elem_of_filter, attendance_rows_elem_of by exact Hwf. tauto.
Qed.

Lemma update_record_row_wf f aid sn d :
  db_wf d → (∀ x, dbr_key (f x) = dbr_key x) → db_wf (update_record_row f aid sn d).2.
Proof.
  intros [Ha Hr] Hf. unfold update_record_row.
  destruct (d_records d !! (aid, sn)) as [x|] eqn:E; [|split; assumption].
  split; [exact Ha|]. simpl. apply map_Forall_insert_2; [|exact Hr].
  rewrite Hf. exact (Hr _ _ E).
Qed.

(** The rows of session [aid] an update of the key [(aid, sn)] leaves
    visible: the updated row if it is not deleted, and the visible rows
    of the other students. *)
Lemma update_record_row_members f aid sn d y :
  db_wf d → (∀ x, dbr_key (f x) = dbr_key x) →
  y ∈ db_get_attendance_records (update_record_row f aid sn d).2 aid ↔
  (∃ x, d_records d !! (aid, sn) = Some x ∧ y = f x ∧ dbr_is_deleted (f x) = false) ∨
  (y ∈ db_get_attendance_records d aid ∧ dbr_student_number y ≠ sn).
Proof.
  intros Hwf Hf.
  rewrite (db_get_attendance_records_elem _ _ _ (update_record_row_wf _ _ _ _ Hwf Hf)).
  rewrite (db_get_attendance_records_elem _ _ _ Hwf).
  destruct y as [ya ys yt yat yf yd ydr ydt]. unfold dbr_key. simpl.
  unfold update_record_row.
  destruct (d_records d !! (aid, sn)) as [x|] eqn:E; simpl.
  - pose proof (proj2 Hwf _ _ E) as Hx. unfold dbr_key in Hx.
    rewrite lookup_insert_Some. split.
    + intros [[[Hk Hy]|[Hk Hl]] [Ha Hd]].
      * left. exists x. split; [done|]. rewrite Hy. split; [done|]. exact Hd.
      * right. split; [done|]. intros ->. apply Hk. congruence.
    + intros [(x' & Hx' & Hy & Hd)|[(Hl & Ha & Hd) Hs]].
      * assert (x' = x) as -> by congruence.
        pose proof (Hf x) as Hfx. rewrite <- Hy in Hfx, Hd. unfold dbr_key in Hfx. simpl in *.
        split; [left; split; [congruence|done]|]. split; [congruence|done].
      * split; [|done]. right. split; [|done]. congruence.
  - split.
    + intros H. right. split; [done|]. intros ->. destruct H as [Hl [Ha _]]. subst. congruence.
    + intros [(x' & Hx' & _)|[H _]]; [discriminate|done].
Qed.

Lemma update_record_row_tag f aid sn d :
  (update_record_row f aid sn d).1 = update_tag (bool_decide (is_Some (d_records d !! (aid, sn)))).
Proof.
  unfold update_record_row. destruct (d_records d !! (aid, sn)); [|done].
  rewrite bool_decide_true; [done|]. by eexists.
Qed.

Lemma update_record_row_missing f aid sn d :
  d_records d !! (aid, sn) = None → update_record_row f aid sn d = (update_tag false, d).
Proof. intros E. unfold update_record_row. by rewrite E. Qed.

Lemma update_record_row_at f aid sn d :
  d_records (update_record_row f aid sn d).2 !! (aid, sn) = f <$> d_records d !! (aid, sn).
Proof.
  unfold update_record_row. destruct (d_records d !! (aid, sn)) eqn:E; simpl; [|by rewrite E].
  apply lookup_insert_eq.
Qed.

(** Accepting a student of a past session: an unknown [(session, student)]
    pair changes nothing and is reported by the tag ["UPDATE 0"], which the
    service drops; a known pair becomes a visible attended row stamped
    [now], even if it had been soft-deleted, and the other visible rows
    of the session stay. *)
Theorem accept_historical_revives d aid sn now :
  db_wf d →
  (d_records d !! (aid, sn) = None →
   accept_historical_attendance_record d aid sn now = ("UPDATE 0"%string, d)) ∧
  (is_Some (d_records d !! (aid, sn)) →
   let d' := accept_student_in_historical_attendance d aid sn now in
   db_wf d' ∧
   ∀ y, y ∈ db_get_attendance_records d' aid ↔
        y = mkAttendanceRecord aid sn true (Some now) None false None None ∨
        (y ∈ db_get_attendance_records d aid ∧ dbr_student_number y ≠ sn)).
Proof.
  intros Hwf. split; [apply update_record_row_missing|].
  intros [x Hx] d'. split; [apply update_record_row_wf; [exact Hwf|reflexivity]|].
  intros y. unfold d', accept_student_in_historical_attendance, accept_historical_attendance_record.
  rewrite update_record_row_members by (exact Hwf || reflexivity).
  pose proof (proj2 Hwf _ _ Hx) as Hk. destruct x as [xa xs]. unfold dbr_key in Hk.
  simpl in Hk. injection Hk as <- <-. simpl.
  split.
  - intros [(x' & Hx' & -> & _)|H]; [left|right; exact H].
    rewrite Hx in Hx'. injection Hx' as <-. reflexivity.
  - intros [->|H]; [left|right; exact H]. eexists. split; [exact Hx|]. done.
Qed.

(** Failing a student of a past session: the same on an unknown pair; a
    known pair becomes a visible row with [is_attended = false], no
    [attendance_time] and the teacher's reason, even if it had been
    soft-deleted. *)
Theorem fail_historical_revives d aid sn reason :
  db_wf d →
  (d_records d !! (aid, sn) = None →
   fail_historical_attendance_record d aid sn reason = ("UPDATE 0"%string, d)) ∧
  (is_Some (d_records d !! (aid, sn)) →
   let d' := fail_student_in_historical_attendance d aid sn reason in
   db_wf d' ∧
   ∀ y, y ∈ db_get_attendance_records d' aid ↔
        y = mkAttendanceRecord aid sn false None (Some reason) false None None ∨
        (y ∈ db_get_attendance_records d aid ∧ dbr_student_number y ≠ sn)).
Proof.
  intros Hwf. split; [apply update_record_row_missing|].
  intros [x Hx] d'. split; [apply update_record_row_wf; [exact Hwf|reflexivity]|].
  intros y. unfold d', fail_student_in_historical_attendance, fail_historical_attendance_record.
  rewrite update_record_row_members by (exact Hwf || reflexivity).
  pose proof (proj2 Hwf _ _ Hx) as Hk. destruct x as [xa xs]. unfold dbr_key in Hk.
  simpl in Hk. injection Hk as <- <-. simpl.
  split.
  - intros [(x' & Hx' & -> & _)|H]; [left|right; exact H].
    rewrite Hx in Hx'. injection Hx' as <-. reflexivity.
  - intros [->|H]; [left|right; exact H]. eexists. split; [exact Hx|]. done.
Qed.

Lemma py_str_split_update_tag b :
  py_str_split (update_tag b) = ["UPDATE"%string; if b then "1"%string else "0"%string].
Proof. destruct b; reflexivity. Qed.

(** Removing a student from a session: with Python's [int] on ["0"] and
    ["1"], the count returned is [1] when the row exists, deleted or not,
    and [0] otherwise; the row keeps its attendance columns and carries
    the deletion reason and time; it is no longer visible, and the other
    visible rows of the session stay. *)
Theorem delete_student_from_attendance_spec int_of d aid sn reason now :
  int_of "0"%string = Some 0%Z → int_of "1"%string = Some 1%Z → db_wf d →
  let res := delete_student_from_attendance int_of d aid sn reason now in
  res.1 = (match d_records d !! (aid, sn) with Some _ => 1 | None => 0 end)%Z ∧
  db_wf res.2 ∧
  d_records res.2 !! (aid, sn) =
    (fun x => mkAttendanceRecord aid sn (dbr_is_attended x) (dbr_attendance_time x)
                (dbr_fail_reason x) true (Some reason) (Some now)) <$> d_records d !! (aid, sn) ∧
  ∀ y, y ∈ db_get_attendance_records res.2 aid ↔
       y ∈ db_get_attendance_records d aid ∧ dbr_student_number y ≠ sn.
Proof.
  intros H0 H1 Hwf res.
  set (f := fun x => mkAttendanceRecord (dbr_attendance_id x) (dbr_student_number x)
                       (dbr_is_attended x) (dbr_attendance_time x) (dbr_fail_reason x)
                       true (Some reason) (Some now)).
  assert (Hf : ∀ x, dbr_key (f x) = dbr_key x) by reflexivity.
  assert (Hres : res = ((if bool_decide (is_Some (d_records d !! (aid, sn))) then 1 else 0)%Z,
                        (update_record_row f aid sn d).2)).
  { unfold res, delete_student_from_attendance, delete_attendance_record. fold f.
    rewrite (surjective_pairing (update_record_row f aid sn d)), update_record_row_tag.
    rewrite py_str_split_update_tag. simpl.
    destruct (bool_decide _); [rewrite H1|rewrite H0]; reflexivity. }
  rewrite Hres. simpl. split; [|split; [|split]].
  - destruct (d_records d !! (aid, sn)) eqn:E.
    + rewrite bool_decide_true; [done|]. by eexists.
    + rewrite bool_decide_false; [done|]. by intros [? ?].
  - by apply update_record_row_wf.
  - rewrite update_record_row_at. destruct (d_records d !! (aid, sn)) as [x|] eqn:E; [|done].
    simpl. pose proof (proj2 Hwf _ _ E) as Hk. destruct x. unfold dbr_key in Hk.
    simpl in *. injection Hk as <- <-. reflexivity.
  - intros y. rewrite update_record_row_members by done. split.
    + intros [(x & _ & _ & Hd)|H]; [discriminate|exact H].
    + intros H. by right.
Qed.

Lemma accept_historical_revives_witness :
  db_wf demo_db_deleted ∧ is_Some (d_records demo_db_deleted !! ("a1"%string, "S-201"%string)) ∧
  mkAttendanceRecord "a1" "S-201" true (Some 300%Z) None false None None
  ∈ db_get_attendance_records (accept_student_in_historical_attendance demo_db_deleted "a1" "S-201" 300) "a1".
Proof.
  assert (Hwf : db_wf demo_db_deleted) by (apply (bool_decide_unpack (db_wf demo_db_deleted)); vm_compute; reflexivity).
  assert (Hs : is_Some (d_records demo_db_deleted !! ("a1"%string, "S-201"%string)))
    by (vm_compute; eexists; reflexivity).
  split; [exact Hwf|]. split; [exact Hs|].
  apply (proj2 (accept_historical_revives demo_db_deleted "a1" "S-201" 300 Hwf) Hs). by left.
Defined.

Lemma fail_historical_revives_witness :
  db_wf demo_db_deleted ∧ is_Some (d_records demo_db_deleted !! ("a1"%string, "S-201"%string)) ∧
  mkAttendanceRecord "a1" "S-201" false None (Some "absent"%string) false None None
  ∈ db_get_attendance_records (fail_student_in_historical_attendance demo_db_deleted "a1" "S-201" "absent") "a1".
Proof.
  assert (Hwf : db_wf demo_db_deleted) by (apply (bool_decide_unpack (db_wf demo_db_deleted)); vm_compute; reflexivity).
  assert (Hs : is_Some (d_records demo_db_deleted !! ("a1"%string, "S-201"%string)))
    by (vm_compute; eexists; reflexivity).
  split; [exact Hwf|]. split; [exact Hs|].
  apply (proj2 (fail_historical_revives demo_db_deleted "a1" "S-201" "absent" Hwf) Hs). by left.
Defined.

Lemma delete_student_from_attendance_spec_witness :
  db_wf demo_db_deleted ∧
  (delete_student_from_attendance demo_int demo_db_deleted "a1" "S-201" "again" 400).1 = 1%Z.
Proof.
  assert (Hwf : db_wf demo_db_deleted) by (apply (bool_decide_unpack (db_wf demo_db_deleted)); vm_compute; reflexivity).
  split; [exact Hwf|].
  rewrite (proj1 (delete_student_from_attendance_spec demo_int demo_db_deleted "a1" "S-201" "again" 400
                    eq_refl eq_refl Hwf)).
  vm_compute. reflexivity.
Defined.

Lemma foldl_insert_attendance_keep xs m k v :
  m !! k = Some v → foldl insert_attendance m xs !! k = Some v.
Proof.
  revert m. induction xs as [|a xs IH]; intros m Hm; simpl; [exact Hm|].
  apply IH. unfold insert_attendance.
  destruct (m !! db_attendance_id a) eqn:E; [exact Hm|].
  rewrite lookup_insert_ne; [exact Hm|]. congruence.
Qed.

(** Deleting a session that is in the durable store: it is no longer found
    by id nor listed among its teacher's sessions, the teacher's other
    sessions stay listed, and no later insert of sessions (the sweep's
    [ON CONFLICT DO NOTHING]) brings it back. *)
Theorem delete_attendance_hides d aid reason now tsn :
  db_wf d → is_Some (d_attendances d !! aid) →
  let d' := delete_attendance d aid reason now in
  db_wf d' ∧
  (∀ a, a ∈ get_attendances d' tsn ↔ a ∈ get_attendances d tsn ∧ db_attendance_id a ≠ aid) ∧
  ∀ xs, get_attendance_by_id (add_attendances xs d') aid = None.
Proof.
  intros Hwf [a0 Ha0] d'.
  pose proof (proj1 Hwf _ _ Ha0) as Hid.
  set (a' := mkAttendance (db_attendance_id a0) (db_teacher_school_number a0)
               (db_lesson_name a0) (db_ip_address a0) (db_start_time a0) (db_end_time a0)
               (db_security_option a0) true (Some reason) (Some now)).
  assert (Hd' : d' = mkDb (d_users d) (<[aid := a']> (d_attendances d)) (d_records d)).
  { unfold d', delete_attendance, db_delete_attendance. by rewrite Ha0. }
  assert (Hwf' : db_wf d').
  { rewrite Hd'. split; [|exact (proj2 Hwf)]. simpl.
    apply map_Forall_insert_2; [exact Hid|exact (proj1 Hwf)]. }
  split; [exact Hwf'|]. split.
  - intros a. rewrite (get_attendances_elem _ _ _ Hwf'), (get_attendances_elem _ _ _ Hwf).
    rewrite Hd'. simpl. rewrite lookup_insert_Some. split.
    + intros [[[Hk <-]|[Hk Hl]] [Ht Hdel]]; [discriminate|]. auto.
    + intros [[Hl [Ht Hdel]] Hne]. split; [right; auto|auto].
  - intros xs. unfold get_attendance_by_id.
    assert (Hl : d_attendances d' !! aid = Some a') by (rewrite Hd'; apply lookup_insert_eq).
    destruct xs as [|x xs]; [by simpl; rewrite Hl|].
    unfold add_attendances. cbn [d_attendances].
    by rewrite (foldl_insert_attendance_keep _ _ _ _ Hl).
Qed.

(** Deleting a session that is still live does nothing: the durable store
    has no row yet (tag ["UPDATE 0"], dropped by the service); once the
    sweep migrates the session, it is found by id with no deletion mark,
    and the owner check hands it to its teacher. *)
Theorem delete_live_attendance_undone w aid reason t now s teacher :
  redis_wf (w_redis w) → get_attendance_session (w_redis w) aid = Some s →
  d_attendances (w_db w) !! aid = None → (end_time s < now)%Z →
  user_school_number teacher = teacher_school_number s →
  db_delete_attendance (w_db w) aid reason t = ("UPDATE 0"%string, w_db w) ∧
  let w' := process_session_key now (mkWorld (w_redis w) (delete_attendance (w_db w) aid reason t)) aid in
  get_attendance_by_id (w_db w') aid = Some (attendance_row (attendance_of_redis s)) ∧
  get_and_verify_attendance_owner (w_redis w') (w_db w') aid teacher
  = inr (inr (attendance_row (attendance_of_redis s))).
Proof.
  intros Hwf Hs Hnone Hexp Hteacher.
  assert (Hdel : db_delete_attendance (w_db w) aid reason t = ("UPDATE 0"%string, w_db w))
    by (unfold db_delete_attendance; by rewrite Hnone).
  split; [exact Hdel|]. intros w'.
  assert (Hid : attendance_id s = aid) by (exact (session_key_wf _ _ _ Hwf Hs)).
  assert (Hw' : w' = mkWorld (sweep_cleanup s (get_attendance_records (w_redis w) (attendance_id s)) (w_redis w))
                            (sweep_persist s (get_attendance_records (w_redis w) (attendance_id s)) (w_db w))).
  { unfold w', delete_attendance. rewrite Hdel. simpl.
    unfold process_session_key. simpl. rewrite Hs, bool_decide_false by lia. reflexivity. }
  assert (Hrow : get_attendance_by_id (w_db w') aid = Some (attendance_row (attendance_of_redis s))).
  { rewrite Hw'. unfold get_attendance_by_id. simpl. rewrite sweep_persist_attendances.
    assert (Hk : db_attendance_id (attendance_of_redis s) = aid) by exact Hid.
    rewrite <- Hk. rewrite insert_attendance_fresh by (rewrite Hk; exact Hnone). reflexivity. }
  split; [exact Hrow|].
  unfold get_and_verify_attendance_owner.
  replace (get_attendance_session (w_redis w') aid) with (@None AttendanceRedis).
  2:{ rewrite Hw'. unfold get_attendance_session. simpl. rewrite sweep_cleanup_sessions, Hid.
      by rewrite lookup_delete_eq. }
  rewrite Hrow, bool_decide_true; [reflexivity|]. simpl. congruence.
Qed.

(** Whatever [get_and_verify_attendance_owner] hands out belongs to the
    teacher who asked: a live session stored under that id, or, only when
    there is no live one, the session's durable row, not soft-deleted. *)
Theorem get_and_verify_attendance_owner_sound r d aid teacher x :
  get_and_verify_attendance_owner r d aid teacher = inr x →
  match x with
  | inl live =>
      get_attendance_session r aid = Some live ∧
      teacher_school_number live = user_school_number teacher
  | inr a =>
      get_attendance_session r aid = None ∧ d_attendances d !! aid = Some a ∧
      db_is_deleted a = false ∧ db_teacher_school_number a = user_school_number teacher
  end.
Proof.
  unfold get_and_verify_attendance_owner.
  destruct (get_attendance_session r aid) as [live|] eqn:Hl.
  - case_bool_decide; intros Heq; inversion Heq; subst. auto.
  - unfold get_attendance_by_id.
    destruct (d_attendances d !! aid) as [a|] eqn:Ha; [|discriminate].
    destruct (db_is_deleted a) eqn:Hdel; [discriminate|].
    case_bool_decide; intros Heq; inversion Heq; subst. auto.
Qed.

(** Adding a student to a past session: a session that is missing or
    soft-deleted gives the generic error (the not-found message raised
    inside is replaced) and changes nothing; otherwise the student's row
    is written and visible, stamped [now] only when attended and carrying
    the given reason even then, and a student already in [Users] keeps the
    stored name and role. *)
Theorem add_student_to_historical_spec d aid student att reason now :
  db_wf d →
  (get_attendance_by_id d aid = None →
   add_student_to_historical_attendance d aid student att reason now
   = (Some (ServiceError "An error occurred while adding the student to the historical attendance."), d)) ∧
  (is_Some (get_attendance_by_id d aid) →
   let res := add_student_to_historical_attendance d aid student att reason now in
   let row := mkAttendanceRecord aid (user_school_number student) att
                (if att then Some now else None) reason false None None in
   res.1 = None ∧ db_wf res.2 ∧
   row ∈ db_get_attendance_records res.2 aid ∧
   d_records res.2 !! (aid, user_school_number student) = Some row ∧
   (∀ u, d_users d !! user_school_number student = Some u →
         d_users res.2 !! user_school_number student = Some u) ∧
   (d_users d !! user_school_number student = None →
    d_users res.2 !! user_school_number student = Some student)).
Proof.
  intros Hwf. unfold add_student_to_historical_attendance.
  split; [intros ->; reflexivity|].
  intros [a Ha]. rewrite Ha. simpl.
  set (row := mkAttendanceRecord aid (user_school_number student) att
                (if att then Some now else None) reason false None None).
  assert (Hrow : <[dbr_key row := record_row row]> (d_records d) !! (aid, user_school_number student)
                 = Some row) by apply lookup_insert_eq.
  assert (Hwf' : db_wf (mkDb (insert_user (d_users d) student) (d_attendances d)
                          (<[dbr_key row := record_row row]> (d_records d)))).
  { split; [exact (proj1 Hwf)|]. simpl. apply map_Forall_insert_2; [reflexivity|exact (proj2 Hwf)]. }
  split; [done|]. split; [exact Hwf'|]. split; [|split; [exact Hrow|split]].
  - apply db_get_attendance_records_elem; [exact Hwf'|]. split_and!; [exact Hrow|done|done].
  - intros u Hu. unfold insert_user. by rewrite Hu.
  - intros Hu. unfold insert_user. rewrite Hu. apply lookup_insert_eq.
Qed.

Lemma delete_attendance_hides_witness :
  db_wf demo_db ∧ is_Some (d_attendances demo_db !! "a1"%string) ∧
  get_attendance_by_id
    (add_attendances [attendance_of_redis demo_session] (delete_attendance demo_db "a1" "mistake" 300))
    "a1" = None.
Proof.
  assert (Hwf : db_wf demo_db) by (apply (bool_decide_unpack (db_wf demo_db)); vm_compute; reflexivity).
  assert (Hs : is_Some (d_attendances demo_db !! "a1"%string)) by (vm_compute; eexists; reflexivity).
  split; [exact Hwf|]. split; [exact Hs|].
  exact (proj2 (proj2 (delete_attendance_hides demo_db "a1" "mistake" 300 "T-101" Hwf Hs)) _).
Defined.

Lemma delete_live_attendance_undone_witness :
  get_and_verify_attendance_owner (w_redis (process_session_key 150 demo_world "a1"))
    (w_db (process_session_key 150 demo_world "a1")) "a1" demo_teacher
  = inr (inr (attendance_row (attendance_of_redis demo_session))).
Proof.
  exact (proj2 (proj2 (delete_live_attendance_undone demo_world "a1" "mistake" 120 150 demo_session
                         demo_teacher demo_world_wf eq_refl eq_refl ltac:(simpl; lia) eq_refl))).
Defined.

Lemma get_and_verify_attendance_owner_sound_witness :
  get_and_verify_attendance_owner empty_redis demo_db "a1" demo_teacher
    = inr (inr (attendance_row (attendance_of_redis demo_session))) ∧
  d_attendances demo_db !! "a1"%string = Some (attendance_row (attendance_of_redis demo_session)).
Proof.
  assert (H : get_and_verify_attendance_owner empty_redis demo_db "a1" demo_teacher
              = inr (inr (attendance_row (attendance_of_redis demo_session)))) by (vm_compute; reflexivity).
  split; [exact H|].
  exact (proj1 (proj2 (get_and_verify_attendance_owner_sound _ _ _ _ _ H))).
Defined.

Lemma add_student_to_historical_spec_witness :
  db_wf demo_db ∧ is_Some (get_attendance_by_id demo_db "a1") ∧
  d_users (add_student_to_historical_attendance demo_db "a1" (mkUser "S-201" "Renamed" "Student")
             true None 300).2 !! "S-201"%string
  = Some (student_user demo_record).
Proof.
  assert (Hwf : db_wf demo_db) by (apply (bool_decide_unpack (db_wf demo_db)); vm_compute; reflexivity).
  assert (Hs : is_Some (get_attendance_by_id demo_db "a1")) by (vm_compute; eexists; reflexivity).
  split; [exact Hwf|]. split; [exact Hs|].
  apply (proj2 (add_student_to_historical_spec demo_db "a1" (mkUser "S-201" "Renamed" "Student")
                  true None 300 Hwf) Hs).
  vm_compute. reflexivity.
Defined.

(* ----------------------------------------------------------------- *)
(** ** The network check and the client address *)

(** [verify_wifi] is symmetric: swapping the session's address and the
    student's address never changes the verdict. *)
Theorem verify_wifi_symmetric ip_of a b :
  verify_wifi ip_of (Some a) b = verify_wifi ip_of (Some b) a.
Proof.
  unfold verify_wifi.
  destruct (decide (a = EmptyString)) as [->|Ha].
  { rewrite (bool_decide_true (EmptyString = EmptyString)) by done. rewrite orb_true_r. reflexivity. }
  destruct (decide (b = EmptyString)) as [->|Hb].
  { rewrite (bool_decide_true (EmptyString = EmptyString)) by done. rewrite orb_true_r. reflexivity. }
  rewrite (bool_decide_false (a = EmptyString)), (bool_decide_false (b = EmptyString)) by done.
  cbn [orb].
  destruct (decide (a = b)) as [->|Hab]; [reflexivity|].
  rewrite (bool_decide_false (a = b)), (bool_decide_false (b = a)) by congruence.
  destruct (ip_of a) as [[x|x]|], (ip_of b) as [[y|y]|]; try reflexivity;
    unfold in_network; apply Z.eqb_sym.
Qed.

Lemma before_comma_idem s : before_comma (before_comma s) = before_comma s.
Proof.
  induction s as [|c s IH]; [reflexivity|]. simpl.
  destruct (Ascii.eqb c ","%char) eqn:E; [reflexivity|]. simpl. rewrite E, IH. reflexivity.
Qed.

Lemma py_lstrip_no_comma s : before_comma s = s → before_comma (py_lstrip s) = py_lstrip s.
Proof.
  induction s as [|c s IH]; [done|]. simpl. intros H.
  destruct (Ascii.eqb c ","%char) eqn:E; [discriminate|]. injection H as H.
  destruct (py_isspace c); [exact (IH H)|]. simpl. rewrite E, H. reflexivity.
Qed.

Lemma py_rstrip_no_comma s : before_comma s = s → before_comma (py_rstrip s) = py_rstrip s.
Proof.
  induction s as [|c s IH]; [done|]. simpl. intros H.
  destruct (Ascii.eqb c ","%char) eqn:E; [discriminate|]. injection H as H.
  destruct (py_isspace c && bool_decide (py_rstrip s = EmptyString)); [reflexivity|].
  simpl. rewrite E, (IH H). reflexivity.
Qed.

Lemma py_rstrip_idem s : py_rstrip (py_rstrip s) = py_rstrip s.
Proof.
  induction s as [|c s IH]; [reflexivity|]. simpl.
  destruct (py_isspace c && bool_decide (py_rstrip s = EmptyString)) eqn:E; [reflexivity|].
  simpl. rewrite IH, E. reflexivity.
Qed.

Lemma py_lstrip_head s :
  py_lstrip s = EmptyString ∨ ∃ c rest, py_lstrip s = String c rest ∧ py_isspace c = false.
Proof.
  induction s as [|c s IH]; [by left|]. simpl.
  destruct (py_isspace c) eqn:E; [exact IH|]. right. eauto.
Qed.

Lemma py_strip_idem s : py_strip (py_strip s) = py_strip s.
Proof.
  unfold py_strip.
  destruct (py_lstrip_head s) as [->|(c & rest & -> & Hc)]; [reflexivity|].
  simpl. rewrite Hc. simpl. rewrite Hc. simpl. rewrite Hc. simpl.
  rewrite py_rstrip_idem. reflexivity.
Qed.

(** The address read from a proxy header is already in normal form:
    cutting it at the first comma and stripping whitespace again changes
    nothing (so it holds no comma and has no surrounding whitespace). *)
Theorem get_client_ip_normalised h host ip :
  is_Some (find_header h client_ip_headers) → get_client_ip h host = Some ip →
  before_comma ip = ip ∧ py_strip ip = ip.
Proof.
  intros [v Hv]. unfold get_client_ip. rewrite Hv. intros [= <-]. split.
  - unfold py_strip. apply py_rstrip_no_comma, py_lstrip_no_comma, before_comma_idem.
  - apply py_strip_idem.
Qed.

(** A [cf-connecting-ip] header whose first item is blank (as in
    [" , 10.0.1.7"]) yields the empty address rather than falling back to
    the next header or the peer, and an attempt with that address at a
    live session of tier 2 or more is recorded [WIFI_FAILED], whatever the
    other headers say. *)
Theorem blank_client_ip_fails_wifi ip_of h host r student aid photo now io act v :
  h "cf-connecting-ip"%string = Some v → v ≠ EmptyString →
  py_strip (before_comma v) = EmptyString →
  get_attendance_session r aid = Some act → (now < end_time act)%Z →
  (2 <= security_option act)%Z →
  may_attempt r aid (user_school_number student) →
  get_client_ip h host = Some EmptyString ∧
  ∃ rec, attend_to_attendance ip_of r student aid (get_client_ip h host) photo now io
         = (inr rec, add_attendance_record rec r, []) ∧
         is_attended rec = false ∧ fail_reason rec = Some "WIFI_FAILED"%string.
Proof.
  intros Hh Hv Hblank Hact Hlive Hsec Hmay.
  assert (Hip : get_client_ip h host = Some EmptyString).
  { unfold get_client_ip, client_ip_headers. cbn [find_header].
    rewrite Hh, (bool_decide_false (v = EmptyString)) by exact Hv. rewrite Hblank. reflexivity. }
  split; [exact Hip|]. rewrite Hip.
  apply (attend_wifi_failed ip_of r student aid (Some EmptyString) photo now io act); try assumption.
  reflexivity.
Qed.


Lemma get_client_ip_normalised_witness :
  is_Some (find_header demo_forwarded client_ip_headers) ∧
  get_client_ip demo_forwarded None = Some "10.0.1.7"%string ∧
  py_strip "10.0.1.7"%string = "10.0.1.7"%string.
Proof.
  assert (Hs : is_Some (find_header demo_forwarded client_ip_headers)) by (vm_compute; eexists; reflexivity).
  assert (Hip : get_client_ip demo_forwarded None = Some "10.0.1.7"%string) by (vm_compute; reflexivity).
  split; [exact Hs|]. split; [exact Hip|].
  exact (proj2 (get_client_ip_normalised demo_forwarded None "10.0.1.7" Hs Hip)).
Defined.

Lemma blank_client_ip_fails_wifi_witness :
  ∃ rec, attend_to_attendance parse_ipv4 demo_live_redis demo_student "a1"
           (get_client_ip demo_headers (Some "10.0.1.7"%string)) None 50 demo_io
         = (inr rec, add_attendance_record rec demo_live_redis, []) ∧
         fail_reason rec = Some "WIFI_FAILED"%string.
Proof.
  destruct (blank_client_ip_fails_wifi parse_ipv4 demo_headers (Some "10.0.1.7"%string)
              demo_live_redis demo_student "a1" None 50 demo_io demo_session " , 10.0.1.7"
              eq_refl ltac:(discriminate) ltac:(vm_compute; reflexivity) eq_refl
              ltac:(simpl; lia) ltac:(simpl; lia) I)
    as [_ (rec & Hatt & _ & Hf)].
  exists rec. split; [exact Hatt|exact Hf].
Defined.

(* ----------------------------------------------------------------- *)
(** ** Verdicts racing the teacher and the sweep *)

Lemma sweep_cleanup_verifications s recs r :
  r_verifications (sweep_cleanup s recs r) = r_verifications r.
Proof. destruct recs; reflexivity. Qed.

(** A teacher's manual accept does not settle a pending face check: a
    correctly signed failing verdict arriving afterwards turns the record
    back to not attended, keeps the accept's timestamp, sets the
    verifier's reason, and so lets the student attempt again (when the
    correlation entry has not yet expired at the verdict's arrival). *)
Theorem verdict_overrides_manual_accept hmac secret parse r vid body sig p usn aid now now' rec' r1 :
  redis_wf r → hexdigest (hmac secret body) = sig → parse body = Some p →
  verification_passed p = false →
  get_user_and_attendance_for_verification r vid now' = Some (usn, aid) →
  accept_student_attendance r aid usn now = (Some rec', r1) →
  ∃ r2, update_attendance_from_webhook hmac secret parse r1 vid body sig now'
        = (HttpOk StatusSuccess, r2) ∧
     ∃ rec2, get_attendance_record_by_id r2 aid usn = Some rec2 ∧
       is_attended rec2 = false ∧ attendance_time rec2 = Some now ∧
       fail_reason rec2 = Some ("FACE_VERIFICATION_FAILED: " +:+ reason p)%string ∧
       may_attempt r2 aid usn.
Proof.
  intros [_ Hwr] Hsig Hp Hfail Hv Hacc.
  unfold accept_student_attendance in Hacc.
  destruct (get_attendance_record_by_id r aid usn) as [rec|] eqn:Hrec; [|discriminate].
  injection Hacc as <- <-.
  pose proof (Hwr _ _ Hrec) as Hk. unfold record_key in Hk. injection Hk as Ha Hu.
  set (rec' := mkRecordRedis (rec_attendance_id rec) (student_number rec) (student_full_name rec)
                 true (Some now) None (rec_is_deleted rec) (rec_deletion_reason rec)
                 (rec_deletion_time rec)).
  assert (Hk' : record_key rec' = (aid, usn)) by (unfold record_key; simpl; congruence).
  pose proof (compare_digest_signed _ _ Hsig) as Hok.
  assert (Hv1 : get_user_and_attendance_for_verification (update_attendance_record rec' r) vid now'
                = Some (usn, aid)) by exact Hv.
  assert (Hr1 : get_attendance_record_by_id (update_attendance_record rec' r) aid usn = Some rec').
  { unfold get_attendance_record_by_id, update_attendance_record, add_attendance_record. simpl.
    rewrite Hk'. apply lookup_insert_eq. }
  unfold update_attendance_from_webhook. rewrite Hok, Hp, Hv1, Hr1.
  eexists. split; [reflexivity|].
  set (rec2 := apply_verdict p rec' now').
  assert (Hk2 : record_key rec2 = (aid, usn)) by (unfold rec2, apply_verdict; rewrite Hfail; exact Hk').
  assert (Hl : get_attendance_record_by_id
                 (delete_verification_mapping vid (update_attendance_record rec2 (update_attendance_record rec' r)))
                 aid usn = Some rec2).
  { unfold get_attendance_record_by_id, update_attendance_record, add_attendance_record. simpl.
    rewrite Hk2. apply lookup_insert_eq. }
  exists rec2. unfold may_attempt. rewrite Hl. unfold rec2, apply_verdict. rewrite Hfail. simpl.
  split_and!; try reflexivity.
  intros Heq. injection Heq. discriminate.
Qed.

(** A verdict that arrives after the sweep has migrated its session, while
    its correlation entry has not yet expired, is lost: the callback
    answers 404 and drops the correlation entry, and the durable record is
    the live record as it was when swept (for a pending attempt, still
    [FACE_RECOGNITION_PENDING]). *)
Theorem verdict_after_sweep_lost hmac secret parse w vid body sig p usn aid s rec now now' :
  redis_wf (w_redis w) → hexdigest (hmac secret body) = sig → parse body = Some p →
  get_user_and_attendance_for_verification (w_redis w) vid now' = Some (usn, aid) →
  get_attendance_session (w_redis w) aid = Some s → (end_time s < now)%Z →
  get_attendance_record_by_id (w_redis w) aid usn = Some rec →
  let w' := process_session_key now w aid in
  update_attendance_from_webhook hmac secret parse (w_redis w') vid body sig now'
    = (HttpError 404, delete_verification_mapping vid (w_redis w')) ∧
  d_records (w_db w') !! (aid, usn) = Some (record_of_redis rec).
Proof.
  intros Hwf Hsig Hp Hv Hs Hexp Hrec w'.
  pose proof (process_session_key_expired now w aid s Hwf Hs Hexp) as (_ & _ & _ & Hgone & _ & _ & Hdb).
  split; [|exact (Hdb _ _ Hrec)].
  pose proof (compare_digest_signed _ _ Hsig) as Hok.
  assert (Hv' : get_user_and_attendance_for_verification (w_redis w') vid now' = Some (usn, aid)).
  { unfold w', process_session_key. rewrite Hs, bool_decide_false by lia. simpl.
    unfold get_user_and_attendance_for_verification. rewrite sweep_cleanup_verifications. exact Hv. }
  unfold update_attendance_from_webhook. rewrite Hok, Hp, Hv'.
  unfold get_attendance_record_by_id. fold w'. rewrite Hgone. reflexivity.
Qed.

Lemma verdict_overrides_manual_accept_witness :
  ∃ r2, update_attendance_from_webhook demo_hmac "secret" demo_parse
          (accept_student_attendance demo_pending_redis "a3" "S-201" 40).2 "v1"
          "blurred" (hexdigest (demo_hmac "secret" "blurred")) 60 = (HttpOk StatusSuccess, r2) ∧
        may_attempt r2 "a3" "S-201".
Proof.
  destruct (verdict_overrides_manual_accept demo_hmac "secret" demo_parse demo_pending_redis "v1"
              "blurred" (hexdigest (demo_hmac "secret" "blurred")) (mkPayload false "blurred")
              "S-201" "a3" 40 60
              _ _ demo_pending_redis_wf eq_refl eq_refl eq_refl eq_refl eq_refl)
    as (r2 & Hup & rec2 & _ & _ & _ & _ & Hmay).
  exists r2. split; [exact Hup|exact Hmay].
Defined.

Lemma verdict_after_sweep_lost_witness :
  let w' := process_session_key 150 (mkWorld demo_pending_redis empty_db) "a3" in
  update_attendance_from_webhook demo_hmac "secret" demo_parse (w_redis w') "v1" "passed"
    (hexdigest (demo_hmac "secret" "passed")) 160
    = (HttpError 404, delete_verification_mapping "v1" (w_redis w')) ∧
  d_records (w_db w') !! ("a3"%string, "S-201"%string) = Some (record_of_redis demo_pending_record).
Proof.
  exact (verdict_after_sweep_lost demo_hmac "secret" demo_parse
           (mkWorld demo_pending_redis empty_db) "v1" "passed"
           (hexdigest (demo_hmac "secret" "passed"))
           (mkPayload true "passed") "S-201" "a3" demo_session_t3 demo_pending_record 150 160
           demo_pending_redis_wf eq_refl eq_refl eq_refl eq_refl ltac:(simpl; lia) eq_refl).
Defined.

(* ----------------------------------------------------------------- *)
(** ** Failures inside the face check *)

(** On a live tier-3 session, with the network check passed, a photo and a
    reference image url on file: if the reference download fails the
    attempt ends in the generic error and writes nothing; if the verifier
    rejects the job the attempt is recorded
    [FACE_VERIFICATION_SUBMISSION_FAILED], the correlation entry it wrote
    is removed again, and the student may attempt again. *)
Theorem face_pipeline_failures ip_of r student aid sip photo now io act us url :
  redis_wf r →
  get_attendance_session r aid = Some act → (now < end_time act)%Z →
  may_attempt r aid (user_school_number student) →
  security_option act = 3%Z →
  truthy sip && verify_wifi ip_of (ip_address act) (default EmptyString sip) = true →
  truthy photo = true →
  get_user_session r (user_school_number student) = Some us →
  image_url us = Some url → url ≠ EmptyString →
  (io_reference_image io = None →
   attend_to_attendance ip_of r student aid sip photo now io
   = (inl (ServiceError "An unexpected error occurred during the attendance process."), r,
      [EvDownloadReference url])) ∧
  (∀ img, io_reference_image io = Some img → io_submit_accepted io = false →
   ∃ rec r',
     attend_to_attendance ip_of r student aid sip photo now io
     = (inr rec, r', [EvDownloadReference url;
                      EvSubmitJob (io_verification_id io) (user_school_number student) aid]) ∧
     is_attended rec = false ∧
     fail_reason rec = Some "FACE_VERIFICATION_SUBMISSION_FAILED"%string ∧
     r_verifications r' = delete (io_verification_id io) (r_verifications r) ∧
     may_attempt r' aid (user_school_number student)).
Proof.
  intros Hwf Hact Hlive Hmay Hsec Hw Hphoto Hus Hurl Hne.
  assert (Hid : attendance_id act = aid) by (by eapply session_key_wf).
  set (usn := user_school_number student) in *.
  assert (Hred : attend_to_attendance ip_of r student aid sip photo now io
                 = match face_check r student act photo now io with
                   | (inl _, r1, evs) =>
                       (inl (ServiceError "An unexpected error occurred during the attendance process."), r1, evs)
                   | (inr fail, r1, evs) =>
                       let ok := bool_decide (fail = None) in
                       let new_record :=
                         mkRecordRedis (attendance_id act) usn (user_full_name student) ok
                           (if ok then Some now else None) fail false None None in
                       (inr new_record, add_attendance_record new_record r1, evs)
                   end).
  { unfold attend_to_attendance; rewrite Hact.
    rewrite (bool_decide_false (_ <= _)%Z) by lia.
    unfold may_attempt in Hmay. fold usn.
    destruct (get_attendance_record_by_id _ _ _) as [ex|];
    [destruct Hmay as [Hmay1 Hmay2]; rewrite Hmay1, (bool_decide_false (fail_reason ex = _)) by done|];
    cbn zeta.
    all: rewrite <- negb_andb, Hw, (bool_decide_true (security_option act = 3)%Z) by lia.
    all: cbn [andb negb].
    all: rewrite andb_false_r; cbn iota.
    all: rewrite (bool_decide_true (None = None)) by done; cbn [andb].
    all: destruct (face_check r student act photo now io) as [[[u|fail] r1] evs]; reflexivity. }
  assert (Hfc : face_check r student act photo now io
                = match io_reference_image io with
                  | None => (inl tt, r, [EvDownloadReference url])
                  | Some _ =>
                      match submit_face_verification_job student (attendance_id act) io now r with
                      | (inr _, r', evs) => (inr (Some PENDING), r', EvDownloadReference url :: evs)
                      | (inl _, r', evs) =>
                          (inr (Some "FACE_VERIFICATION_SUBMISSION_FAILED"%string), r',
                           EvDownloadReference url :: evs)
                      end
                  end).
  { unfold face_check. rewrite Hphoto. cbn [negb]. cbn iota.
    fold usn. rewrite Hus, Hurl, (bool_decide_false (url = EmptyString)) by exact Hne.
    reflexivity. }
  split.
  - intros Himg. rewrite Hred, Hfc, Himg. reflexivity.
  - intros img Himg Hrej.
    set (vid := io_verification_id io).
    set (r' := delete_verification_mapping vid (map_verification_to_user vid usn aid now r)).
    set (rec := mkRecordRedis aid usn (user_full_name student) false None
                  (Some "FACE_VERIFICATION_SUBMISSION_FAILED"%string) false None None).
    exists rec, (add_attendance_record rec r').
    rewrite Hred, Hfc, Himg. unfold submit_face_verification_job. rewrite Hrej, Hid.
    rewrite (bool_decide_false (Some _ = None)) by done.
    split_and!; try reflexivity.
    + simpl. apply delete_insert_eq.
    + unfold may_attempt, get_attendance_record_by_id, add_attendance_record, record_key. simpl.
      rewrite lookup_insert_eq. split; [reflexivity|]. intros Heq. injection Heq. discriminate.
Qed.

Lemma face_pipeline_failures_witness :
  ∃ rec r',
    attend_to_attendance parse_ipv4 demo_t3_redis demo_student "a3" (Some "10.0.1.7")
      (Some "photo-bytes") 50 (mkExternalIO (Some "reference-bytes") "v2" false)
    = (inr rec, r', [EvDownloadReference demo_reference_url; EvSubmitJob "v2" "S-201" "a3"]) ∧
    may_attempt r' "a3" "S-201".
Proof.
  destruct (proj2 (face_pipeline_failures parse_ipv4 demo_t3_redis demo_student "a3" (Some "10.0.1.7")
                     (Some "photo-bytes") 50 (mkExternalIO (Some "reference-bytes") "v2" false)
                     demo_session_t3 (mkUserSession demo_student (Some demo_reference_url))
                     demo_reference_url demo_t3_redis_wf eq_refl ltac:(simpl; lia) I eq_refl
                     ltac:(vm_compute; reflexivity) eq_refl eq_refl eq_refl ltac:(discriminate))
                  "reference-bytes" eq_refl eq_refl)
    as (rec & r' & Hatt & _ & _ & _ & Hmay).
  exists rec, r'. split; [exact Hatt|exact Hmay].
Defined.

(* ----------------------------------------------------------------- *)
(** ** The durable store's keys across the lifecycle *)

Lemma db_wf_sweep_persist s recs d : db_wf d → db_wf (sweep_persist s recs d).
Proof.
  intros [Ha Hr]. split.
  - rewrite sweep_persist_attendances. unfold insert_attendance.
    destruct (d_attendances d !! _); [exact Ha|].
    apply map_Forall_insert_2; [reflexivity|exact Ha].
  - rewrite sweep_persist_records. generalize (d_records d) Hr.
    induction (map record_of_redis recs) as [|x xs IH]; intros m Hm; simpl; [exact Hm|].
    apply IH. unfold upsert_record. apply map_Forall_insert_2; [reflexivity|exact Hm].
Qed.

(* ----------------------------------------------------------------- *)
(** ** The name index key and the expiry of correlation entries *)

(** The name index is keyed by the joined string [{lesson}:{teacher}]: a
    student searching for lesson ["Math"] of teacher ["Intro:Dr. X"] is
    shown both that session and the session of lesson ["Math:Intro"] of
    teacher ["Dr. X"]. *)
Theorem name_index_collision :
  name_index_of "Math:Intro" "Dr. X" = name_index_of "Math" "Intro:Dr. X" ∧
  map (fun a => (lesson_name a, teacher_full_name a))
      (find_active_sessions_by_name demo_collision_redis "Math" "Intro:Dr. X" 50)
  = [("Math:Intro"%string, "Dr. X"%string); ("Math"%string, "Intro:Dr. X"%string)].
Proof. split; vm_compute; reflexivity. Qed.

(** A correctly signed verdict that arrives after its correlation entry has
    expired is answered with the already-processed status and changes
    nothing: a pending record it was meant to settle stays pending, and the
    student stays locked out of the session. *)
Theorem verdict_after_ttl_ignored hmac secret parse r vid body sig p now' v exp aid usn rec :
  r_verifications r !! vid = Some (v, exp) → (exp < now')%Z →
  hexdigest (hmac secret body) = sig → parse body = Some p →
  get_attendance_record_by_id r aid usn = Some rec → fail_reason rec = Some PENDING →
  update_attendance_from_webhook hmac secret parse r vid body sig now'
    = (HttpOk StatusNotFoundOrAlreadyProcessed, r) ∧
  ¬ may_attempt r aid usn.
Proof.
  intros Hv Hexp Hsig Hp Hrec Hpend. split.
  - unfold update_attendance_from_webhook. rewrite (compare_digest_signed _ _ Hsig), Hp.
    unfold get_user_and_attendance_for_verification. rewrite Hv.
    by rewrite (bool_decide_true (exp < now')%Z).
  - unfold may_attempt. rewrite Hrec. intros [_ Hne]. exact (Hne Hpend).
Qed.

Lemma verdict_after_ttl_ignored_witness :
  update_attendance_from_webhook demo_hmac "secret" demo_parse demo_pending_redis "v1" "passed"
    (hexdigest (demo_hmac "secret" "passed")) 400
    = (HttpOk StatusNotFoundOrAlreadyProcessed, demo_pending_redis) ∧
  ¬ may_attempt demo_pending_redis "a3" "S-201".
Proof.
  exact (verdict_after_ttl_ignored demo_hmac "secret" demo_parse demo_pending_redis "v1" "passed"
           (hexdigest (demo_hmac "secret" "passed")) (mkPayload true "passed") 400
           "S-201:a3" 340 "a3" "S-201" demo_pending_record
           eq_refl ltac:(lia) eq_refl eq_refl eq_refl eq_refl).
Defined.
